(** * The transform stage of the COVID ETL pipeline (src/transform.py)

    A shallow embedding of [to_snake_case], [normalize_columns] and
    [process_country_df], with the pandas objects they work on.

    Modelling decisions, all of them about the libraries the code calls
    and not about the code itself:
    - a Python string is a [string] of 8-bit characters (a code point
      above 127 is none of the classes the regular expressions name, and
      is stripped by the fourth step of [to_snake_case]);
    - a DataFrame is the ordered list of its columns, labels may repeat;
      a cell is missing, an integer, a float, a string or a timestamp;
    - integer columns are mathematical integers ([Z]): the int64 storage
      and the float64 detour of [diff] and [shift] are exact for counts
      of cases and are not modelled;
    - DataFrames live in a store and are handled through references, so
      that copying, rebinding and in-place assignment are told apart;
    - what pandas does with one value when it parses a date or converts
      to an integer is a parameter of the development, and so is the
      clock that [datetime.today()] reads. *)

From Stdlib Require Import ZArith Ascii String List Lia.
From Stdlib Require Import Floats.PrimFloat Floats.SpecFloat Floats.FloatOps.
From stdpp Require Import base option list sorting strings gmap.

Open Scope string_scope.
Open Scope list_scope.
Open Scope Z_scope.

(** ** Column names: [to_snake_case] *)

Module Text.

Definition code (c : ascii) : N := N_of_ascii c.

Definition between (lo hi : N) (c : ascii) : bool :=
  (N.leb lo (code c) && N.leb (code c) hi)%bool.

(** The character classes of the three regular expressions. *)
Definition is_upper : ascii -> bool := between 65 90.      (* [A-Z] *)
Definition is_lower : ascii -> bool := between 97 122.     (* [a-z] *)
Definition is_digit : ascii -> bool := between 48 57.      (* [0-9] *)
Definition is_underscore (c : ascii) : bool := N.eqb (code c) 95.
Definition is_space (c : ascii) : bool := N.eqb (code c) 32.
Definition is_newline (c : ascii) : bool := N.eqb (code c) 10.

(** [.] without DOTALL: any character but a newline. *)
Definition is_dot (c : ascii) : bool := negb (is_newline c).

(** [[0-9a-zA-Z_]], the characters the fourth step keeps. *)
Definition is_word (c : ascii) : bool :=
  (is_digit c || is_lower c || is_upper c || is_underscore c)%bool.

(** [[a-z0-9_]], the alphabet of a canonical column name. *)
Definition is_canonical (c : ascii) : bool :=
  (is_lower c || is_digit c || is_underscore c)%bool.

Definition lower_char (c : ascii) : ascii :=
  if is_upper c then ascii_of_N (code c + 32) else c.

(** [re.sub('(.)([A-Z][a-z]+)', r'\1_\2', s)].  The scan goes left to
    right; a match takes one character, one capital and the longest run
    of small letters after it, and the scan resumes after that run.
    [in_run] says that the previous character ended inside such a run,
    so a small letter here still belongs to the match being copied. *)
Fixpoint sub_capital_word (in_run : bool) (s : string) : string :=
  match s with
  | EmptyString => EmptyString
  | String c rest =>
      if (in_run && is_lower c)%bool then String c (sub_capital_word true rest)
      else
        match rest with
        | String u (String l rest') =>
            if (is_dot c && is_upper u && is_lower l)%bool
            then String c (String "_" (String u (String l (sub_capital_word true rest'))))
            else String c (sub_capital_word false rest)
        | _ => String c (sub_capital_word false rest)
        end
  end.

(** [re.sub('([a-z0-9])([A-Z])', r'\1_\2', s)]: both characters of a
    match are consumed. *)
Fixpoint sub_camel (s : string) : string :=
  match s with
  | EmptyString => EmptyString
  | String c rest =>
      match rest with
      | String u rest' =>
          if ((is_lower c || is_digit c) && is_upper u)%bool
          then String c (String "_" (String u (sub_camel rest')))
          else String c (sub_camel rest)
      | EmptyString => String c EmptyString
      end
  end.

Fixpoint map_chars (f : ascii -> ascii) (s : string) : string :=
  match s with
  | EmptyString => EmptyString
  | String c rest => String (f c) (map_chars f rest)
  end.

Fixpoint keep_chars (p : ascii -> bool) (s : string) : string :=
  match s with
  | EmptyString => EmptyString
  | String c rest => if p c then String c (keep_chars p rest) else keep_chars p rest
  end.

Fixpoint all_chars (p : ascii -> bool) (s : string) : bool :=
  match s with
  | EmptyString => true
  | String c rest => (p c && all_chars p rest)%bool
  end.

(** [s.replace(" ", "_")] *)
Definition replace_spaces : string -> string :=
  map_chars (fun c => if is_space c then "_"%char else c).

(** [re.sub(r'[^0-9a-zA-Z_]+', "", s)] *)
Definition strip_non_word : string -> string := keep_chars is_word.

(** [s.lower()], on what the fourth step left. *)
Definition lower : string -> string := map_chars lower_char.

Definition to_snake_case (s : string) : string :=
  let s := sub_capital_word false s in
  let s := sub_camel s in
  let s := replace_spaces s in
  let s := strip_non_word s in
  lower s.

(** Does [s] match [^[a-z0-9_]*$] ? *)
Definition canonical (s : string) : bool := all_chars is_canonical s.

(** ["date" in c] *)
Fixpoint contains (needle hay : string) : bool :=
  (String.prefix needle hay ||
   match hay with
   | EmptyString => false
   | String _ rest => contains needle rest
   end)%bool.

End Text.

Export Text.

(** ** Cells, columns and frames *)

Module Frame.

(** A value held by a column.  [NA] is [None]/[NaN] of an object column,
    [NaT] the missing timestamp; [Ts t] is a timestamp, [t] nanoseconds
    after the epoch. *)
Inductive cell : Type :=
| NA
| NaT
| Int (z : Z)
| Flt (f : float)
| Str (s : string)
| Ts (t : Z).

(** [pd.isna] on one value. *)
Definition isna (c : cell) : bool :=
  match c with
  | NA | NaT => true
  | Flt f => PrimFloat.is_nan f
  | _ => false
  end.

Record column : Type := Col { label : string; values : list cell }.

(** Columns in their order; pandas lets two of them carry one label. *)
Abbreviation DataFrame := (list column).

Definition columns (t : DataFrame) : list string := label <$> t.

Definition nrows (t : DataFrame) : nat :=
  match t with
  | [] => 0%nat
  | c :: _ => length (values c)
  end.

(** [df.empty]: no column, or no row. *)
Definition empty (t : DataFrame) : bool := Nat.eqb (nrows t) 0.

(** What [df[k]] is: one column when the label is unique, a sub-frame
    when several columns carry it. *)
Inductive selection : Type :=
| Series (v : list cell)
| SubFrame (vs : list (list cell)).

Fixpoint select (k : string) (t : DataFrame) : list (list cell) :=
  match t with
  | [] => []
  | c :: t' => if String.eqb (label c) k then values c :: select k t' else select k t'
  end.

Definition getitem (k : string) (t : DataFrame) : option selection :=
  match select k t with
  | [] => None
  | [v] => Some (Series v)
  | vs => Some (SubFrame vs)
  end.

Definition has_column (k : string) (t : DataFrame) : bool :=
  existsb (String.eqb k) (columns t).

(** [df[k] = v]: every column labelled [k] takes the values (a 1-d value
    is broadcast over them); a new label is appended. *)
Definition setitem (k : string) (v : list cell) (t : DataFrame) : DataFrame :=
  if has_column k t
  then (fun c => if String.eqb (label c) k then Col k v else c) <$> t
  else t ++ [Col k v].

(** [df.columns = names] *)
Definition set_columns (names : list string) (t : DataFrame) : DataFrame :=
  zip_with (fun n c => Col n (values c)) names t.

(** [df.rename(columns={old: new})] *)
Definition rename (old new : string) (t : DataFrame) : DataFrame :=
  (fun c => if String.eqb (label c) old then Col new (values c) else c) <$> t.

(** [take]: the rows at the given positions, in that order. *)
Definition pick (idx : list nat) (v : list cell) : list cell :=
  (fun i => default NA (v !! i)) <$> idx.

Definition take_rows (idx : list nat) (t : DataFrame) : DataFrame :=
  (fun c => Col (label c) (pick idx (values c))) <$> t.

(** [mask.nonzero()]: the positions where the mask holds. *)
Fixpoint nonzero_from (i : nat) (mask : list bool) : list nat :=
  match mask with
  | [] => []
  | b :: m => if b then i :: nonzero_from (S i) m else nonzero_from (S i) m
  end.

Definition nonzero : list bool -> list nat := nonzero_from 0.

(** [df[mask]] is [take] at the positions of the mask. *)
Definition mask_rows (mask : list bool) (t : DataFrame) : DataFrame :=
  take_rows (nonzero mask) t.

Definition key_le (a b : Z * nat) : Prop := a.1 <= b.1.

#[global] Instance key_le_dec a b : Decision (key_le a b).
Proof. unfold key_le. apply _. Defined.

(** The indexer [sort_values] computes: positions in ascending order of
    their keys. *)
Definition argsort (keys : list Z) : list nat :=
  snd <$> merge_sort key_le (zip keys (seq 0 (length keys))).

(** The order pandas gives the values that reach [sort_values] here:
    timestamps by instant, integers by value. *)
Definition sort_key (c : cell) : Z :=
  match c with
  | Ts t => t
  | Int z => z
  | _ => 0
  end.

Definition sort_rows (v : list cell) (t : DataFrame) : DataFrame :=
  take_rows (argsort (sort_key <$> v)) t.

(** [s.fillna(x)] with a scalar. *)
Definition fillna (x : cell) (v : list cell) : list cell :=
  (fun c => if isna c then x else c) <$> v.

(** The integer behind a cell of an int64 column. *)
Definition to_int (c : cell) : Z :=
  match c with
  | Int z => z
  | _ => 0
  end.

(** [s.diff()] on integers: no value in the first row. *)
Fixpoint diff_from (prev : Z) (c : list Z) : list (option Z) :=
  match c with
  | [] => []
  | x :: r => Some (x - prev) :: diff_from x r
  end.

Definition diff (c : list Z) : list (option Z) :=
  match c with
  | [] => []
  | x :: r => None :: diff_from x r
  end.

(** [s.shift(1)] *)
Definition shift (c : list Z) : list (option Z) :=
  match c with
  | [] => []
  | _ :: _ => None :: (Some <$> removelast c)
  end.

(** [s.fillna(other)], row by row, and [s.fillna(0)]; [astype(int)]
    after them changes nothing. *)
Definition fillna_with (s : list (option Z)) (other : list Z) : list Z :=
  zip_with (fun o x => default x o) s other.

Definition fillna0 (s : list (option Z)) : list Z := default 0 <$> s.

(** [s.max()] and [s.sum()] of an integer column. *)
Definition series_max (c : list Z) : Z :=
  match c with
  | [] => 0
  | x :: r => fold_left Z.max r x
  end.

Definition series_sum (c : list Z) : Z := fold_right Z.add 0 c.

(** Python's [a / b] on integers: the quotient as a double. *)
Definition float_of_Z (z : Z) : float :=
  SF2Prim (binary_normalize prec emax z 0 false).

Definition true_div (a b : Z) : float :=
  PrimFloat.div (float_of_Z a) (float_of_Z b).

End Frame.

Export Frame.

(** ** The store of Python objects, and what a call can end in *)

Module Store.

Abbreviation loc := nat.

Abbreviation store := (list DataFrame).

Inductive exn : Type :=
| UnparseableDate            (* to_datetime refuses a value *)
| DuplicateKeys (k : string) (* a label meant as one column names several *)
| InvalidInt                 (* astype(int) refuses a value *)
| KeyError (k : string)
| IndexError.

Inductive outcome (A : Type) : Type :=
| Ok (a : A)
| Raise (e : exn).

Arguments Ok {A} a.
Arguments Raise {A} e.

#[global] Instance outcome_ret : MRet outcome := fun _ a => Ok a.

#[global] Instance outcome_bind : MBind outcome := fun _ _ f o =>
  match o with
  | Ok a => f a
  | Raise e => Raise e
  end.

Definition checked {A} (e : exn) (o : option A) : outcome A :=
  match o with
  | Some a => Ok a
  | None => Raise e
  end.

(** A computation reads and writes the store and returns or raises. *)
Definition M (A : Type) : Type := store -> outcome A * store.

Definition ret {A} (a : A) : M A := fun h => (Ok a, h).

Definition raise {A} (e : exn) : M A := fun h => (Raise e, h).

Definition bind {A B} (m : M A) (f : A -> M B) : M B :=
  fun h =>
    match m h with
    | (Ok a, h') => f a h'
    | (Raise e, h') => (Raise e, h')
    end.

(** The object a reference points to. *)
Definition deref (l : loc) : M DataFrame :=
  fun h => (Ok (default [] (h !! l)), h).

(** A new object. *)
Definition new (t : DataFrame) : M loc :=
  fun h => (Ok (length h), h ++ [t]).

(** In-place change of an object. *)
Definition update (l : loc) (t : DataFrame) : M unit :=
  fun h => (Ok tt, <[l := t]> h).

Definition lift {A} (o : outcome A) : M A := fun h => (o, h).

Definition of_option {A} (e : exn) (o : option A) : M A := lift (checked e o).

End Store.

Export Store.

Declare Scope store_scope.
Delimit Scope store_scope with store.
Notation "x <- m ;; k" := (bind m (fun x => k))
  (at level 100, m at next level, right associativity) : store_scope.
Notation "m ;; k" := (bind m (fun _ => k))
  (at level 100, right associativity) : store_scope.
Open Scope store_scope.

(** ** DataFrame methods on references *)

Module Pandas.

Definition item0 (cols : list string) : M string :=
  of_option IndexError (head cols).

Definition df_empty (df : loc) : M bool :=
  t <- deref df ;; ret (empty t).

Definition df_columns (df : loc) : M (list string) :=
  t <- deref df ;; ret (columns t).

(** [df.copy()] *)
Definition df_copy (df : loc) : M loc :=
  t <- deref df ;; new t.

(** [df.columns = names], in place *)
Definition df_set_columns (df : loc) (names : list string) : M unit :=
  t <- deref df ;; update df (set_columns names t).

(** [df[k]] *)
Definition df_getitem (df : loc) (k : string) : M selection :=
  t <- deref df ;; of_option (KeyError k) (getitem k t).

(** A selection used as one column.  Where this function does so with a
    sub-frame pandas ends in a ValueError: a frame of several columns is
    not stored under one new label, and has no truth value in
    [safe_growth] or [classify]. *)
Definition squeeze (k : string) (s : selection) : M (list cell) :=
  match s with
  | Series v => ret v
  | SubFrame _ => raise (DuplicateKeys k)
  end.

Definition df_series (df : loc) (k : string) : M (list cell) :=
  s <- df_getitem df k ;; squeeze k s.

Definition df_ints (df : loc) (k : string) : M (list Z) :=
  v <- df_series df k ;; ret (to_int <$> v).

(** [df[k] = v], in place *)
Definition df_setitem (df : loc) (k : string) (v : list cell) : M unit :=
  t <- deref df ;; update df (setitem k v t).

(** [df[k] = x] with a scalar, in place *)
Definition df_setitem_scalar (df : loc) (k : string) (x : cell) : M unit :=
  t <- deref df ;; update df (setitem k (replicate (nrows t) x) t).

(** [df[mask]]: a new frame *)
Definition df_getitem_mask (df : loc) (mask : list bool) : M loc :=
  t <- deref df ;; new (mask_rows mask t).

(** [df.rename(columns={old: new})]: a new frame *)
Definition df_rename (df : loc) (old new_ : string) : M loc :=
  t <- deref df ;; new (rename old new_ t).

(** [df.sort_values(k)]: a new frame *)
Definition df_sort_values (df : loc) (k : string) : M loc :=
  v <- df_series df k ;;
  t <- deref df ;;
  new (sort_rows v t).

(** [timedelta(days=n)] in nanoseconds *)
Definition timedelta_days (n : Z) : Z := n * 86400 * 1000000000.

(** [series >= instant] and [series <= instant]; a missing timestamp
    compares false. *)
Definition ge_datetime (x : Z) (c : cell) : bool :=
  match c with
  | Ts t => (x <=? t)%Z
  | _ => false
  end.

Definition le_datetime (x : Z) (c : cell) : bool :=
  match c with
  | Ts t => (t <=? x)%Z
  | _ => false
  end.

Definition of_datetime64 (d : option Z) : cell :=
  match d with
  | Some t => Ts t
  | None => NaT
  end.

(** [next(iter(l), d)] *)
Definition next (l : list string) (d : string) : string :=
  match l with
  | x :: _ => x
  | [] => d
  end.

End Pandas.

Export Pandas.

(** ** [normalize_columns] and [process_country_df] *)

Definition normalize_columns (df : loc) : M loc :=
  df <- df_copy df ;;
  cols <- df_columns df ;;
  df_set_columns df (to_snake_case <$> cols) ;;
  ret df.

Record totals : Type := Totals {
  country : string;
  total_confirmed : Z;
  total_new_cases : Z
}.

(** [safe_growth], local to [process_country_df] *)
Definition safe_growth (new_cases prev : Z) : float :=
  if prev >? 0 then true_div new_cases prev else 0%float.

(** [classify], local to [process_country_df]; it closes over the
    thresholds. *)
Definition classify (risk_thresholds : gmap string Z) (n : Z) : string :=
  if n >? default 10000 (risk_thresholds !! "medium") then "alto"
  else if n >? default 1000 (risk_thresholds !! "low") then "medio"
  else "bajo".

Section Transform.

(** The instant [datetime.today()] returns, in nanoseconds. *)
Variable today : Z.

(** [pd.to_datetime] on one string or number: [None] when it raises,
    [Some None] for [NaT]. *)
Variable parse_datetime : cell -> option (option Z).

(** [astype(int)] on one string or float: [None] when it raises. *)
Variable int_of_value : cell -> option Z.

Definition to_datetime_value (c : cell) : option cell :=
  if isna c then Some NaT
  else
    match c with
    | Ts t => Some (Ts t)
    | _ => of_datetime64 <$> parse_datetime c
    end.

(** [pd.to_datetime(s)]; a sub-frame is refused ("cannot assemble with
    duplicate keys"). *)
Definition to_datetime (k : string) (s : selection) : M (list cell) :=
  match s with
  | Series v => of_option UnparseableDate (mapM to_datetime_value v)
  | SubFrame _ => raise (DuplicateKeys k)
  end.

Definition astype_int_value (c : cell) : option Z :=
  match c with
  | Int z => Some z
  | Ts t => Some t
  | NA | NaT => None
  | _ => int_of_value c
  end.

(** [s.astype(int)] *)
Definition astype_int (v : list cell) : M (list Z) :=
  of_option InvalidInt (mapM astype_int_value v).

Definition process_country_df
    (df : loc) (country : string) (risk_thresholds : gmap string Z)
    : M (loc * totals) :=
  e <- df_empty df ;;
  if e : bool then ret (df, Totals country 0 0)
  else
    df <- normalize_columns df ;;
    cols <- df_columns df ;;
    first <- item0 cols ;;
    let date_col := next (filter (fun c => contains "date" c = true) cols) first in
    s <- df_getitem df date_col ;;
    d <- to_datetime date_col s ;;
    df_setitem df date_col d ;;
    let last_30_days := today - timedelta_days 30 in
    a <- df_series df date_col ;;
    b <- df_series df date_col ;;
    df <- df_getitem_mask df
            (zip_with andb (ge_datetime last_30_days <$> a) (le_datetime today <$> b)) ;;
    s <- df_getitem df date_col ;;
    d <- to_datetime date_col s ;;
    df_setitem df date_col d ;;
    cols <- df_columns df ;;
    df <- (if (negb (bool_decide ("confirmed" ∈ cols)) && bool_decide ("cases" ∈ cols))%bool
           then df_rename df "cases" "confirmed"
           else ret df) ;;
    cols <- df_columns df ;;
    (if negb (bool_decide ("confirmed" ∈ cols))
     then df_setitem_scalar df "confirmed" (Int 0)
     else ret tt) ;;
    s <- df_series df "confirmed" ;;
    c <- astype_int (fillna (Int 0) s) ;;
    df_setitem df "confirmed" (Int <$> c) ;;
    df <- df_sort_values df date_col ;;
    c <- df_ints df "confirmed" ;;
    c' <- df_ints df "confirmed" ;;
    df_setitem df "new_cases" (Int <$> fillna_with (diff c) c') ;;
    c <- df_ints df "confirmed" ;;
    df_setitem df "prev_confirmed" (Int <$> fillna0 (shift c)) ;;
    n <- df_ints df "new_cases" ;;
    p <- df_ints df "prev_confirmed" ;;
    df_setitem df "growth_rate" (Flt <$> zip_with safe_growth n p) ;;
    n <- df_ints df "new_cases" ;;
    df_setitem df "risk" (Str <$> (classify risk_thresholds <$> n)) ;;
    df_setitem_scalar df "country" (Str country) ;;
    e <- df_empty df ;;
    tc <- (if e : bool then ret 0 else c <- df_ints df "confirmed" ;; ret (series_max c)) ;;
    e <- df_empty df ;;
    tn <- (if e : bool then ret 0 else n <- df_ints df "new_cases" ;; ret (series_sum n)) ;;
    ret (df, Totals country tc tn).

(** *** The same function on values

    [transform] is [process_country_df] with the store erased: it maps
    the frame the argument points to to the frame the result points to.
    [process_country_df_run] below shows that the two agree. *)

Definition series (k : string) (t : DataFrame) : outcome (list cell) :=
  match getitem k t with
  | None => Raise (KeyError k)
  | Some (Series v) => Ok v
  | Some (SubFrame _) => Raise (DuplicateKeys k)
  end.

Definition ints (k : string) (t : DataFrame) : outcome (list Z) :=
  match series k t with
  | Ok v => Ok (to_int <$> v)
  | Raise e => Raise e
  end.

Definition parse_dates (k : string) (t : DataFrame) : outcome DataFrame :=
  v ← series k t;
  d ← checked UnparseableDate (mapM to_datetime_value v);
  Ok (setitem k d t).

Definition normalize (t : DataFrame) : DataFrame :=
  set_columns (to_snake_case <$> columns t) t.

Definition date_column (cols : list string) : outcome string :=
  first ← checked IndexError (head cols);
  Ok (next (filter (fun c => contains "date" c = true) cols) first).

Definition window_mask (a b : list cell) : list bool :=
  zip_with andb (ge_datetime (today - timedelta_days 30) <$> a) (le_datetime today <$> b).

(** One row of that mask. *)
Definition in_window (c : cell) : bool :=
  (ge_datetime (today - timedelta_days 30) c && le_datetime today c)%bool.

Definition resolve_confirmed (t : DataFrame) : DataFrame :=
  let t :=
    if (negb (bool_decide ("confirmed" ∈ columns t)) && bool_decide ("cases" ∈ columns t))%bool
    then rename "cases" "confirmed" t else t in
  if negb (bool_decide ("confirmed" ∈ columns t))
  then setitem "confirmed" (replicate (nrows t) (Int 0)) t else t.

Definition coerce_confirmed (t : DataFrame) : outcome DataFrame :=
  s ← series "confirmed" t;
  c ← checked InvalidInt (mapM astype_int_value (fillna (Int 0) s));
  Ok (setitem "confirmed" (Int <$> c) t).

Definition sorted_by (k : string) (t : DataFrame) : outcome DataFrame :=
  v ← series k t; Ok (sort_rows v t).

Definition add_metrics (risk_thresholds : gmap string Z) (country : string)
    (t : DataFrame) : outcome DataFrame :=
  c ← ints "confirmed" t;
  c' ← ints "confirmed" t;
  let t := setitem "new_cases" (Int <$> fillna_with (diff c) c') t in
  c ← ints "confirmed" t;
  let t := setitem "prev_confirmed" (Int <$> fillna0 (shift c)) t in
  n ← ints "new_cases" t;
  p ← ints "prev_confirmed" t;
  let t := setitem "growth_rate" (Flt <$> zip_with safe_growth n p) t in
  n ← ints "new_cases" t;
  let t := setitem "risk" (Str <$> (classify risk_thresholds <$> n)) t in
  Ok (setitem "country" (replicate (nrows t) (Str country)) t).

Definition total_of (f : list Z -> Z) (k : string) (t : DataFrame) : outcome Z :=
  if empty t then Ok 0 else c ← ints k t; Ok (f c).

Definition transform (t : DataFrame) (country : string) (risk_thresholds : gmap string Z)
    : outcome (DataFrame * totals) :=
  if empty t then Ok (t, Totals country 0 0)
  else
    let t := normalize t in
    date_col ← date_column (columns t);
    t ← parse_dates date_col t;
    a ← series date_col t;
    b ← series date_col t;
    let t := mask_rows (window_mask a b) t in
    t ← parse_dates date_col t;
    t ← coerce_confirmed (resolve_confirmed t);
    t ← sorted_by date_col t;
    t ← add_metrics risk_thresholds country t;
    tc ← total_of series_max "confirmed" t;
    tn ← total_of series_sum "new_cases" t;
    Ok (t, Totals country tc tn).

End Transform.

(** ** One reading of the two library parameters, for concrete runs *)

Module Sample.

Definition digit_value (c : ascii) : option Z :=
  if Text.is_digit c then Some (Z.of_N (Text.code c) - 48) else None.

Fixpoint digits_value (acc : Z) (s : string) : option Z :=
  match s with
  | EmptyString => Some acc
  | String c rest =>
      match digit_value c with
      | Some d => digits_value (10 * acc + d) rest
      | None => None
      end
  end.

Definition decimal (s : string) : option Z :=
  match s with
  | EmptyString => None
  | _ => digits_value 0 s
  end.

Definition is_leap (y : Z) : bool :=
  ((y mod 4 =? 0) && (negb (y mod 100 =? 0) || (y mod 400 =? 0)))%bool.

Definition days_in_month (y m : Z) : Z :=
  if m =? 2 then (if is_leap y then 29 else 28)
  else if (m =? 4) || (m =? 6) || (m =? 9) || (m =? 11) then 30
  else 31.

(** Days from 1970-01-01 to the given day of the proleptic Gregorian
    calendar. *)
Definition days_from_civil (y m d : Z) : Z :=
  let y' := if (m <=? 2)%Z then y - 1 else y in
  let era := y' / 400 in
  let yoe := y' - era * 400 in
  let mp := (m + 9) mod 12 in
  let doy := (153 * mp + 2) / 5 + d - 1 in
  let doe := yoe * 365 + yoe / 4 - yoe / 100 + doy in
  era * 146097 + doe - 719468.

(** A date written [YYYY-MM-DD], as the instant of its midnight. *)
Definition iso_date (s : string) : option Z :=
  if (String.length s =? 10)%nat
     && String.eqb (substring 4 1 s) "-" && String.eqb (substring 7 1 s) "-"
  then
    y ← decimal (substring 0 4 s);
    m ← decimal (substring 5 2 s);
    d ← decimal (substring 8 2 s);
    if ((1 <=? m) && (m <=? 12) && (1 <=? d) && (d <=? days_in_month y m))%Z
    then Some (days_from_civil y m d * 86400 * 1000000000)
    else None
  else None.

(** Dates written [YYYY-MM-DD] parse, integers count nanoseconds, the
    empty string is [NaT], anything else is refused. *)
Definition parse_datetime (c : cell) : option (option Z) :=
  match c with
  | Str "" => Some None
  | Str s => Some <$> iso_date s
  | Int z => Some (Some z)
  | _ => None
  end.

(** Strings of decimal digits, with a sign or not, convert. *)
Definition int_of_value (c : cell) : option Z :=
  match c with
  | Str (String "-" s) => Z.opp <$> decimal s
  | Str (String "+" s) => decimal s
  | Str s => decimal s
  | _ => None
  end.

(** The rows of spec 8.7. *)
Definition raw : DataFrame :=
  [ Col "date" [Str "2024-01-01"; Str "2024-01-02"];
    Col "confirmed" [Int 10; Int 25] ].

Definition thresholds : gmap string Z := {[ "low" := 5; "medium" := 20 ]}.

(** 2024-01-15 12:00:00 *)
Definition noon_jan_15 : Z := 1705320000 * 1000000000.

(** Midnight of 2024-01-01 and of 2024-01-02. *)
Definition jan_1 : Z := 1704067200000000000.
Definition jan_2 : Z := 1704153600000000000.

(** What the call returns for [raw], for the country [iso]. *)
Definition enriched (iso : string) : DataFrame :=
  [ Col "date" [Ts jan_1; Ts jan_2];
    Col "confirmed" [Int 10; Int 25];
    Col "new_cases" [Int 10; Int 15];
    Col "prev_confirmed" [Int 0; Int 10];
    Col "growth_rate" [Flt 0; Flt 1.5];
    Col "risk" [Str "medio"; Str "medio"];
    Col "country" [Str iso; Str iso] ].

(** The store after the call on [raw] alone: the argument, the
    normalized copy, the rows of the window, the sorted frame. *)
Definition after_run : store :=
  [ raw;
    [ Col "date" [Ts jan_1; Ts jan_2]; Col "confirmed" [Int 10; Int 25] ];
    [ Col "date" [Ts jan_1; Ts jan_2]; Col "confirmed" [Int 10; Int 25] ];
    enriched "MX" ].


Definition thresholds_below_zero : gmap string Z := {[ "low" := -5; "medium" := -2 ]}.

Definition thresholds_config : gmap string Z :=
  {[ "low" := 100; "medium" := 500; "high" := 1000 ]}.





(** Rows out of order, one of them before the window. *)
Definition shuffled : DataFrame :=
  [ Col "Report Date" [Str "2024-01-02"; Str "2023-01-01"; Str "2024-01-01"];
    Col "cases" [Int 25; Int 1; Int 10];
    Col "region" [Str "b"; Str "a"; Str "c"] ].

End Sample.

(** ** Notions the statements below use *)

(** What a run from the store [h] may do: it leaves [h] as it is and adds
    objects after it, and it returns (a reference to) what [o] says. *)
Definition refines (h : store) (o : outcome (DataFrame * totals))
    (p : outcome (loc * totals) * store) : Prop :=
  exists hs, p.2 = h ++ hs /\
    match p.1, o with
    | Ok (out, tot), Ok (tout, tot') => tot = tot' /\ (h ++ hs) !! out = Some tout
    | Raise e, Raise e' => e = e'
    | _, _ => False
    end.

(** Frames whose columns all have [n] rows. *)
Definition rows_are (n : nat) (t : DataFrame) : Prop :=
  Forall (fun c => length (values c) = n) t.

(** The key at a position, and the positions an indexer picks out of
    another. *)
Definition key_at (keys : list Z) (i : nat) : Z := default 0 (keys !! i).


(** [df["confirmed"].diff().fillna(df["confirmed"]).astype(int)] and
    [df["confirmed"].shift(1).fillna(0).astype(int)] on an integer
    column. *)
Definition new_cases_of (c : list Z) : list Z := fillna_with (diff c) c.

Definition prev_confirmed_of (c : list Z) : list Z := fillna0 (shift c).

(** * Properties *)

(** ** The column normalizer *)

Section TextFacts.

Lemma canonical_not_upper c : is_canonical c = true -> is_upper c = false.
Proof. destruct c as [[] [] [] [] [] [] [] []]; vm_compute; congruence. Qed.

Lemma canonical_not_space c : is_canonical c = true -> is_space c = false.
Proof. destruct c as [[] [] [] [] [] [] [] []]; vm_compute; congruence. Qed.

Lemma canonical_is_word c : is_canonical c = true -> is_word c = true.
Proof. destruct c as [[] [] [] [] [] [] [] []]; vm_compute; congruence. Qed.

Lemma lower_char_canonical c : is_word c = true -> is_canonical (lower_char c) = true.
Proof. destruct c as [[] [] [] [] [] [] [] []]; vm_compute; congruence. Qed.

Lemma all_chars_cons p c s :
  all_chars p (String c s) = true <-> p c = true /\ all_chars p s = true.
Proof. simpl. apply andb_true_iff. Qed.

Lemma sub_capital_word_step b c rest :
  sub_capital_word b (String c rest) =
  if (b && is_lower c)%bool then String c (sub_capital_word true rest)
  else
    match rest with
    | String u (String l rest') =>
        if (is_dot c && is_upper u && is_lower l)%bool
        then String c (String "_" (String u (String l (sub_capital_word true rest'))))
        else String c (sub_capital_word false rest)
    | _ => String c (sub_capital_word false rest)
    end.
Proof. reflexivity. Qed.

Lemma sub_capital_word_canonical s :
  canonical s = true -> forall b, sub_capital_word b s = s.
Proof.
  unfold canonical. induction s as [|c s IH]; intros Hs b; [reflexivity|].
  apply all_chars_cons in Hs as [Hc Hs]. rewrite sub_capital_word_step.
  destruct (b && is_lower c)%bool; [by rewrite IH|].
  destruct s as [|u [|l s']]; try by rewrite IH.
  pose proof Hs as Hs0. apply all_chars_cons in Hs as [Hu Hs'].
  rewrite (canonical_not_upper u Hu), andb_false_r. cbn [andb].
  by rewrite IH.
Qed.

Lemma sub_camel_step c rest :
  sub_camel (String c rest) =
  match rest with
  | String u rest' =>
      if ((is_lower c || is_digit c) && is_upper u)%bool
      then String c (String "_" (String u (sub_camel rest')))
      else String c (sub_camel rest)
  | EmptyString => String c EmptyString
  end.
Proof. reflexivity. Qed.

Lemma sub_camel_canonical s : canonical s = true -> sub_camel s = s.
Proof.
  unfold canonical. induction s as [|c s IH]; intros Hs; [reflexivity|].
  apply all_chars_cons in Hs as [Hc Hs]. rewrite sub_camel_step.
  destruct s as [|u s']; [reflexivity|].
  pose proof Hs as Hs0. apply all_chars_cons in Hs as [Hu Hs'].
  rewrite (canonical_not_upper u Hu), andb_false_r. by rewrite IH.
Qed.

Lemma replace_spaces_canonical s : canonical s = true -> replace_spaces s = s.
Proof.
  unfold canonical, replace_spaces. induction s as [|c s IH]; intros Hs; [reflexivity|].
  apply all_chars_cons in Hs as [Hc Hs]. simpl.
  by rewrite (canonical_not_space c Hc), IH.
Qed.

Lemma strip_non_word_canonical s : canonical s = true -> strip_non_word s = s.
Proof.
  unfold canonical, strip_non_word. induction s as [|c s IH]; intros Hs; [reflexivity|].
  apply all_chars_cons in Hs as [Hc Hs]. simpl.
  by rewrite (canonical_is_word c Hc), IH.
Qed.

Lemma lower_canonical s : canonical s = true -> lower s = s.
Proof.
  unfold canonical, lower. induction s as [|c s IH]; intros Hs; [reflexivity|].
  apply all_chars_cons in Hs as [Hc Hs]. simpl.
  rewrite IH by done. unfold lower_char. by rewrite (canonical_not_upper c Hc).
Qed.

Lemma lower_strip_canonical s : canonical (lower (strip_non_word s)) = true.
Proof.
  unfold canonical, lower, strip_non_word. induction s as [|c s IH]; [reflexivity|].
  simpl. destruct (is_word c) eqn:Hc; [|done].
  simpl. by rewrite (lower_char_canonical c Hc), IH.
Qed.

Lemma to_snake_case_canonical s : canonical (to_snake_case s) = true.
Proof. apply lower_strip_canonical. Qed.

Lemma to_snake_case_fixed s : canonical s = true -> to_snake_case s = s.
Proof.
  intros Hs. unfold to_snake_case.
  by rewrite (sub_capital_word_canonical s Hs false), (sub_camel_canonical s Hs),
    (replace_spaces_canonical s Hs), (strip_non_word_canonical s Hs), (lower_canonical s Hs).
Qed.

End TextFacts.

(** C8.  The normalizer is idempotent, on one name and on a list of
    column names; every name it returns is written in [a-z0-9_] only,
    and every name written so is left as it is. *)
Theorem to_snake_case_idempotent :
  (forall x : string, to_snake_case (to_snake_case x) = to_snake_case x) /\
  (forall cols : list string,
      to_snake_case <$> (to_snake_case <$> cols) = to_snake_case <$> cols) /\
  (forall x : string, canonical (to_snake_case x) = true) /\
  (forall x : string, canonical x = true <-> to_snake_case x = x).
Proof.
  assert (Hidem : forall x, to_snake_case (to_snake_case x) = to_snake_case x)
    by (intros x; apply to_snake_case_fixed, to_snake_case_canonical).
  repeat split.
  - exact Hidem.
  - intros cols. rewrite <- list_fmap_compose. apply list_fmap_ext.
    intros _ x _. apply Hidem.
  - apply to_snake_case_canonical.
  - apply to_snake_case_fixed.
  - intros <-. apply to_snake_case_canonical.
Qed.

(** ** The risk classifier *)

Lemma classify_cases (th : gmap string Z) (n : Z) :
  let medium := default 10000 (th !! "medium") in
  let low := default 1000 (th !! "low") in
  (classify th n = "alto" <-> n > medium) /\
  (classify th n = "medio" <-> low < n <= medium) /\
  (classify th n = "bajo" <-> n <= medium /\ n <= low).
Proof.
  intros medium low. unfold classify. fold medium low.
  destruct (Z.gtb_spec n medium), (Z.gtb_spec n low);
    repeat split; intros; try discriminate; try lia; try reflexivity.
Qed.

(** ** The store: [process_country_df] against [transform] *)

Section Run.

Variable today : Z.
Variable parse_datetime : cell -> option (option Z).
Variable int_of_value : cell -> option Z.

Abbreviation process := (process_country_df today parse_datetime int_of_value).
Abbreviation pure := (transform today parse_datetime int_of_value).


Lemma store_length (h hs : store) : length (h ++ hs) = (length h + length hs)%nat.
Proof. apply length_app. Qed.

Lemma store_lookup (h hs : store) k : (h ++ hs) !! (length h + k)%nat = hs !! k.
Proof. rewrite lookup_app_r by lia. f_equal. lia. Qed.

Lemma store_insert (h hs : store) k x :
  <[(length h + k)%nat := x]> (h ++ hs) = h ++ <[k := x]> hs.
Proof. rewrite insert_app_r_alt by lia. do 2 f_equal. lia. Qed.

Lemma store_app (h hs : store) x : (h ++ hs) ++ [x] = h ++ (hs ++ [x]).
Proof. by rewrite <- app_assoc. Qed.

Lemma refines_ok h hs k tout tot :
  hs !! k = Some tout ->
  refines h (Ok (tout, tot)) (Ok ((length h + k)%nat, tot), h ++ hs).
Proof. intros Hk. exists hs. simpl. by rewrite store_lookup. Qed.

Lemma refines_raise h hs e : refines h (Raise e) (Raise e, h ++ hs).
Proof. by exists hs. Qed.

Lemma bind_assoc {A B C} (m : M A) (f : A -> M B) (g : B -> M C) (H : store) :
  bind (bind m f) g H = bind m (fun x => bind (f x) g) H.
Proof. unfold bind. by destruct (m H) as [[a|e] H']. Qed.

Lemma run_lift {A B} (o : outcome A) (K : A -> M B) (H : store) :
  bind (lift o) K H = match o with Ok a => K a H | Raise e => (Raise e, H) end.
Proof. reflexivity. Qed.

Lemma run_ret {A B} (a : A) (K : A -> M B) (H : store) : bind (ret a) K H = K a H.
Proof. reflexivity. Qed.

Lemma run_of_option {A B} e (o : option A) (K : A -> M B) (H : store) :
  bind (of_option e o) K H =
  match checked e o with Ok a => K a H | Raise e => (Raise e, H) end.
Proof. reflexivity. Qed.

Lemma run_astype_int {B} v (K : list Z -> M B) (H : store) :
  bind (astype_int int_of_value v) K H =
  match checked InvalidInt (mapM (astype_int_value int_of_value) v) with
  | Ok a => K a H
  | Raise e => (Raise e, H)
  end.
Proof. reflexivity. Qed.

Section Methods.

Context {B : Type} (h hs : store) (k : nat) (t : DataFrame).
Hypothesis Hk : hs !! k = Some t.

Lemma run_deref (K : DataFrame -> M B) :
  bind (deref (length h + k)) K (h ++ hs) = K t (h ++ hs).
Proof. unfold bind, deref. by rewrite store_lookup, Hk. Qed.

Lemma run_update t' (K : unit -> M B) :
  bind (update (length h + k) t') K (h ++ hs) = K tt (h ++ <[k := t']> hs).
Proof. unfold bind, update. by rewrite store_insert. Qed.

Lemma run_df_empty (K : bool -> M B) :
  bind (df_empty (length h + k)) K (h ++ hs) = K (empty t) (h ++ hs).
Proof. unfold df_empty, bind, deref, ret. by rewrite store_lookup, Hk. Qed.

Lemma run_df_columns (K : list string -> M B) :
  bind (df_columns (length h + k)) K (h ++ hs) = K (columns t) (h ++ hs).
Proof. unfold df_columns, bind, deref, ret. by rewrite store_lookup, Hk. Qed.

Lemma run_df_series key (K : list cell -> M B) :
  bind (df_series (length h + k) key) K (h ++ hs) =
  match series key t with
  | Ok v => K v (h ++ hs)
  | Raise e => (Raise e, h ++ hs)
  end.
Proof.
  unfold df_series, df_getitem, of_option, lift, squeeze, series, bind, deref, ret, raise.
  rewrite store_lookup, Hk. simpl. by destruct (getitem key t) as [[v|vs]|].
Qed.

Lemma run_df_ints key (K : list Z -> M B) :
  bind (df_ints (length h + k) key) K (h ++ hs) =
  match ints key t with
  | Ok c => K c (h ++ hs)
  | Raise e => (Raise e, h ++ hs)
  end.
Proof.
  unfold df_ints, ints. rewrite bind_assoc, (run_df_series key).
  by destruct (series key t).
Qed.

Lemma run_to_datetime key (K : list cell -> M B) :
  bind (df_getitem (length h + k) key)
    (fun s => bind (to_datetime parse_datetime key s) K) (h ++ hs) =
  match series key t with
  | Ok v =>
      match checked UnparseableDate (mapM (to_datetime_value parse_datetime) v) with
      | Ok d => K d (h ++ hs)
      | Raise e => (Raise e, h ++ hs)
      end
  | Raise e => (Raise e, h ++ hs)
  end.
Proof.
  unfold df_getitem, to_datetime, of_option, lift, series, bind, deref, raise.
  rewrite store_lookup, Hk. simpl. by destruct (getitem key t) as [[v|vs]|].
Qed.

Lemma run_df_setitem key v (K : unit -> M B) :
  bind (df_setitem (length h + k) key v) K (h ++ hs) =
  K tt (h ++ <[k := setitem key v t]> hs).
Proof. unfold df_setitem. by rewrite bind_assoc, run_deref, run_update. Qed.

Lemma run_df_setitem_scalar key x (K : unit -> M B) :
  bind (df_setitem_scalar (length h + k) key x) K (h ++ hs) =
  K tt (h ++ <[k := setitem key (replicate (nrows t) x) t]> hs).
Proof. unfold df_setitem_scalar. by rewrite bind_assoc, run_deref, run_update. Qed.

Lemma run_df_set_columns names (K : unit -> M B) :
  bind (df_set_columns (length h + k) names) K (h ++ hs) =
  K tt (h ++ <[k := set_columns names t]> hs).
Proof. unfold df_set_columns. by rewrite bind_assoc, run_deref, run_update. Qed.

Lemma run_new t' (K : loc -> M B) :
  bind (new t') K (h ++ hs) = K (length h + length hs)%nat (h ++ (hs ++ [t'])).
Proof. unfold bind, new. by rewrite store_length, store_app. Qed.

Lemma run_df_getitem_mask mask (K : loc -> M B) :
  bind (df_getitem_mask (length h + k) mask) K (h ++ hs) =
  K (length h + length hs)%nat (h ++ (hs ++ [mask_rows mask t])).
Proof. unfold df_getitem_mask. by rewrite bind_assoc, run_deref, run_new. Qed.

Lemma run_df_rename old new_ (K : loc -> M B) :
  bind (df_rename (length h + k) old new_) K (h ++ hs) =
  K (length h + length hs)%nat (h ++ (hs ++ [rename old new_ t])).
Proof. unfold df_rename. by rewrite bind_assoc, run_deref, run_new. Qed.

Lemma run_df_sort_values key (K : loc -> M B) :
  bind (df_sort_values (length h + k) key) K (h ++ hs) =
  match sorted_by key t with
  | Ok t' => K (length h + length hs)%nat (h ++ (hs ++ [t']))
  | Raise e => (Raise e, h ++ hs)
  end.
Proof.
  unfold df_sort_values, sorted_by. rewrite bind_assoc, (run_df_series key).
  destruct (series key t) as [v|e]; [|done]. simpl.
  by rewrite bind_assoc, run_deref, run_new.
Qed.

End Methods.

Lemma run_normalize_columns {B} (h hs : store) df t (K : loc -> M B) :
  (h ++ hs) !! df = Some t ->
  bind (normalize_columns df) K (h ++ hs) =
  K (length h + length hs)%nat
    (h ++ (hs ++ [normalize t])).
Proof.
  intros Hdf. unfold normalize_columns, df_copy. rewrite !bind_assoc.
  unfold bind at 1, deref at 1. rewrite Hdf. cbn [from_option id].
  rewrite run_new, !bind_assoc.
  erewrite run_df_columns by apply list_lookup_middle, eq_refl.
  rewrite !bind_assoc.
  erewrite run_df_set_columns by apply list_lookup_middle, eq_refl.
  rewrite run_ret. do 2 f_equal.
  rewrite insert_app_r_alt by lia. by rewrite Nat.sub_diag.
Qed.

Ltac known :=
  repeat match goal with
         | H : ?x = _ |- context [?x] => rewrite H
         end.

Ltac pure_step := cbn [mbind outcome_bind mret outcome_ret checked].

Ltac run_with lem := erewrite lem by reflexivity.

Ltac run :=
  first
    [ run_with @run_to_datetime | run_with @run_df_series | run_with @run_df_ints
    | run_with @run_df_setitem | run_with @run_df_setitem_scalar
    | run_with @run_df_getitem_mask | run_with @run_df_rename
    | run_with @run_df_sort_values | run_with @run_df_columns | run_with @run_df_empty
    | rewrite run_astype_int | rewrite run_of_option | rewrite run_lift | rewrite run_ret ];
  cbn [length app lookup list_lookup insert list_insert Nat.add];
  known; pure_step.

Ltac sync :=
  lazymatch goal with
  | |- refines _ _ (match ?x with _ => _ end) =>
      destruct x eqn:?; pure_step; try (by apply refines_raise)
  | |- refines _ _ (bind (match ?x with _ => _ end) _ _) =>
      destruct x eqn:?; pure_step
  end.

Lemma process_country_df_run_aux h df t country th :
  (h ++ []) !! df = Some t ->
  refines h (pure t country th) (process df country th (h ++ [])).
Proof.
  intros Hdf. unfold process_country_df, transform.
  unfold bind at 1, df_empty at 1, bind at 1, deref at 1, ret at 1.
  rewrite Hdf. cbn [from_option id].
  destruct (empty t) eqn:Hempty.
  { exists []. split; [done|]. split; [done|exact Hdf]. }
  rewrite (run_normalize_columns h [] df t _ Hdf).
  cbn [length app Nat.add].
  unfold item0, date_column, parse_dates, coerce_confirmed, resolve_confirmed,
    add_metrics, total_of, window_mask.
  repeat first
    [ progress run | sync | rewrite bind_assoc
    | by (unfold ret; apply refines_ok) ].
Qed.

(** Running [process_country_df] from any store where [df] points to [t]:
    the store keeps all it had, and the call returns (a reference to)
    what [transform] computes from [t], or raises as [transform] does. *)
Lemma process_country_df_run h df t country th :
  h !! df = Some t ->
  refines h (pure t country th) (process df country th h).
Proof.
  intros Hdf. rewrite <- (app_nil_r h) in Hdf |- * at 2.
  by apply process_country_df_run_aux.
Qed.


End Run.

(** ** Frames: selecting, assigning, taking rows *)

Section FrameFacts.

Implicit Types (t : DataFrame) (k : string) (v : list cell).

Lemma select_app k t1 t2 : select k (t1 ++ t2) = select k t1 ++ select k t2.
Proof.
  induction t1 as [|c t1 IH]; [done|]. simpl.
  destruct (String.eqb (label c) k); simpl; by rewrite IH.
Qed.

Lemma has_column_select k t : has_column k t = false <-> select k t = [].
Proof.
  unfold has_column, columns. induction t as [|c t IH]; [done|]. simpl.
  rewrite (String.eqb_sym k). destruct (String.eqb (label c) k); simpl; [|done].
  split; discriminate.
Qed.

Lemma has_column_elem k t : has_column k t = true <-> k ∈ columns t.
Proof.
  unfold has_column. rewrite existsb_exists. split.
  - intros (x & Hx & Hk). apply String.eqb_eq in Hk as ->. by apply list_elem_of_In.
  - intros Hk. exists k. split; [by apply list_elem_of_In | apply String.eqb_refl].
Qed.

Lemma select_elem k t : select k t <> [] <-> k ∈ columns t.
Proof.
  rewrite <- has_column_elem, <- has_column_select.
  destruct (has_column k t); split; congruence.
Qed.

Lemma select_replace k v t k' :
  select k' ((fun c => if String.eqb (label c) k then Col k v else c) <$> t) =
  if String.eqb k k' then (fun _ => v) <$> select k t else select k' t.
Proof.
  induction t as [|c t IH]; [by destruct (String.eqb k k')|].
  cbn [fmap list_fmap select]. rewrite IH.
  destruct (String.eqb (label c) k) eqn:Hc; cbn [label values].
  - apply String.eqb_eq in Hc as Hc'. rewrite Hc'.
    by destruct (String.eqb k k') eqn:Hk.
  - destruct (String.eqb k k') eqn:Hk.
    + apply String.eqb_eq in Hk as <-. by rewrite Hc.
    + done.
Qed.

Lemma select_setitem k v t k' :
  select k' (setitem k v t) =
  if String.eqb k k'
  then match select k t with [] => [v] | vs => (fun _ => v) <$> vs end
  else select k' t.
Proof.
  unfold setitem. destruct (has_column k t) eqn:Hk.
  - rewrite select_replace. destruct (String.eqb k k'); [|done].
    destruct (select k t) eqn:Hs; [|done].
    apply has_column_select in Hs. congruence.
  - rewrite select_app. apply has_column_select in Hk. cbn [select label values].
    destruct (String.eqb k k') eqn:Hkk.
    + apply String.eqb_eq in Hkk as <-. by rewrite Hk.
    + by rewrite app_nil_r.
Qed.

Lemma select_take_rows k idx t :
  select k (take_rows idx t) = pick idx <$> select k t.
Proof.
  unfold take_rows. induction t as [|c t IH]; [done|].
  cbn [fmap list_fmap select label]. rewrite IH.
  by destruct (String.eqb (label c) k).
Qed.



Lemma series_select k t v : series k t = Ok v <-> select k t = [v].
Proof.
  unfold series, getitem. destruct (select k t) as [|v' [|v'' vs]]; split; congruence.
Qed.

Lemma series_setitem_same k v t v' : series k (setitem k v t) = Ok v' -> v' = v.
Proof.
  rewrite series_select, select_setitem, String.eqb_refl.
  destruct (select k t) as [|? [|? ?]]; cbn; congruence.
Qed.

Lemma series_setitem_other k k' v t :
  String.eqb k k' = false -> series k' (setitem k v t) = series k' t.
Proof. intros Hk. unfold series, getitem. by rewrite select_setitem, Hk. Qed.

Lemma series_take_rows k idx t w :
  series k (take_rows idx t) = Ok w ->
  exists v, series k t = Ok v /\ w = pick idx v.
Proof.
  rewrite series_select, select_take_rows.
  destruct (select k t) as [|v [|? ?]] eqn:Hs; cbn; try congruence.
  intros [= <-]. exists v. by rewrite series_select.
Qed.

Lemma series_setitem_id k v t : series k t = Ok v -> setitem k v t = t.
Proof.
  intros Hs. unfold setitem.
  assert (has_column k t = true) as ->.
  { apply series_select in Hs. destruct (has_column k t) eqn:Hk; [done|].
    apply has_column_select in Hk. congruence. }
  apply series_select in Hs. revert Hs.
  induction t as [|[l w] t IH]; [done|]. cbn [select fmap list_fmap label values].
  destruct (String.eqb l k) eqn:Hl.
  - apply String.eqb_eq in Hl as ->. intros [= -> Ht]. f_equal.
    clear IH. induction t as [|[l' w'] t IH]; [done|].
    cbn [select fmap list_fmap label values] in *.
    destruct (String.eqb l' k); [done|]. by rewrite IH.
  - intros Ht. by rewrite IH.
Qed.

Lemma ints_series k t c :
  ints k t = Ok c <-> exists v, series k t = Ok v /\ c = to_int <$> v.
Proof.
  unfold ints. destruct (series k t) as [v|e]; split.
  - intros [= <-]. by exists v.
  - by intros (? & [= <-] & ->).
  - done.
  - by intros (? & ? & _).
Qed.

Lemma to_int_Int (c : list Z) : to_int <$> (Int <$> c) = c.
Proof. rewrite <- list_fmap_compose. by rewrite list_fmap_id. Qed.


Lemma rows_are_take_rows idx t : rows_are (length idx) (take_rows idx t).
Proof.
  unfold rows_are, take_rows, pick. apply Forall_fmap, Forall_forall.
  intros c _. cbn. by rewrite length_fmap.
Qed.

Lemma rows_are_setitem n k v t :
  rows_are n t -> length v = n -> rows_are n (setitem k v t).
Proof.
  unfold rows_are, setitem. intros Ht Hv. destruct (has_column k t).
  - apply Forall_fmap. eapply Forall_impl; [exact Ht|]. intros c Hc. cbn.
    by destruct (String.eqb (label c) k).
  - apply Forall_app. split; [done|]. by constructor.
Qed.

Lemma rows_are_rename n old new_ t : rows_are n t -> rows_are n (rename old new_ t).
Proof.
  unfold rows_are, rename. intros Ht. apply Forall_fmap.
  eapply Forall_impl; [exact Ht|]. intros c Hc. cbn.
  by destruct (String.eqb (label c) old).
Qed.

Lemma rows_are_select n k t v : rows_are n t -> v ∈ select k t -> length v = n.
Proof.
  unfold rows_are. induction 1 as [|c t Hc Ht IH]; cbn.
  - by intros ?%elem_of_nil.
  - destruct (String.eqb (label c) k); [|done].
    intros [->|?]%elem_of_cons; auto.
Qed.

Lemma rows_are_series n k t v : rows_are n t -> series k t = Ok v -> length v = n.
Proof.
  intros Ht Hv%series_select. apply (rows_are_select n k t v Ht).
  rewrite Hv. by left.
Qed.

Lemma rows_are_nrows n t : rows_are n t -> t <> [] -> nrows t = n.
Proof. destruct 1; [done|]. done. Qed.

Lemma series_nonempty k t v : series k t = Ok v -> t <> [].
Proof. by destruct t. Qed.

Lemma setitem_nonempty k v t : setitem k v t <> [].
Proof.
  unfold setitem. destruct (has_column k t) eqn:Hk.
  - destruct t; [done|]. done.
  - by destruct t.
Qed.

End FrameFacts.

(** ** The stages of [transform] *)

Section Stages.

Variable today : Z.
Variable parse_datetime : cell -> option (option Z).
Variable int_of_value : cell -> option Z.

Abbreviation process := (process_country_df today parse_datetime int_of_value).
Abbreviation pure := (transform today parse_datetime int_of_value).
Abbreviation to_dt := (to_datetime_value parse_datetime).
Abbreviation to_i := (astype_int_value int_of_value).
Abbreviation mask_of := (window_mask today).
Abbreviation within := (in_window today).


Lemma bind_ok {A B} (o : outcome A) (f : A -> outcome B) b :
  o ≫= f = Ok b -> exists a, o = Ok a /\ f a = Ok b.
Proof. destruct o as [a|e]; [|done]. intros Hf. by exists a. Qed.

Lemma checked_ok {A} e (o : option A) a : checked e o = Ok a -> o = Some a.
Proof. destruct o; [|done]. by intros [= ->]. Qed.

Lemma in_window_Ts c :
  within c = true <->
  exists x, c = Ts x /\ today - timedelta_days 30 <= x <= today.
Proof.
  unfold in_window. destruct c; cbn; split; try done; try by intros (? & ? & ?).
  - intros [H1 H2]%andb_true_iff. exists t. split; [done|lia].
  - intros (x & [= <-] & Hx). apply andb_true_iff. split; lia.
Qed.

Lemma window_mask_lookup a j :
  mask_of a a !! j = within <$> a !! j.
Proof.
  unfold window_mask, in_window. rewrite lookup_zip_with, !list_lookup_fmap.
  by destruct (a !! j).
Qed.

Lemma elem_of_nonzero_from i mask n :
  n ∈ nonzero_from i mask <-> exists j, n = (i + j)%nat /\ mask !! j = Some true.
Proof.
  revert i. induction mask as [|b m IH]; intros i; cbn [nonzero_from].
  - split; [by intros ?%elem_of_nil | by intros (? & ? & ?)].
  - assert (n ∈ nonzero_from (S i) m <-> exists j, n = (i + S j)%nat /\ m !! j = Some true) as IH'.
    { rewrite IH. by setoid_rewrite Nat.add_succ_r. }
    destruct b.
    + rewrite elem_of_cons, IH'. split.
      * intros [->|(j & -> & Hj)]; [exists 0%nat | exists (S j)]; split; done || lia.
      * intros ([|j] & -> & Hj); [left; lia | right; by exists j].
    + rewrite IH'. split.
      * intros (j & -> & Hj). by exists (S j).
      * intros ([|j] & -> & Hj); [done | by exists j].
Qed.

Lemma elem_of_nonzero mask n : n ∈ nonzero mask <-> mask !! n = Some true.
Proof.
  unfold nonzero. rewrite elem_of_nonzero_from. split.
  - by intros (j & -> & Hj).
  - intros Hn. by exists n.
Qed.


(** The positions the window keeps: those of the timestamps in the
    closed interval from thirty days before [today] to [today]. *)
Lemma elem_of_window a n :
  n ∈ nonzero (mask_of a a) <->
  exists x, a !! n = Some (Ts x) /\ today - timedelta_days 30 <= x <= today.
Proof.
  rewrite elem_of_nonzero, window_mask_lookup. split.
  - destruct (a !! n) as [c|]; [|done]. cbn. intros [= Hc].
    apply in_window_Ts in Hc as (x & -> & Hx). by exists x.
  - intros (x & -> & Hx). cbn. f_equal. apply in_window_Ts. by exists x.
Qed.

Lemma pick_window_Ts a :
  Forall (fun c => exists x, c = Ts x) (pick (nonzero (mask_of a a)) a).
Proof.
  unfold pick. apply Forall_fmap, Forall_forall. intros n Hn.
  apply elem_of_window in Hn as (x & Hx & _). cbn. rewrite Hx. by exists x.
Qed.

Lemma to_datetime_Ts (l : list cell) :
  Forall (fun c => exists x, c = Ts x) l -> mapM to_dt l = Some l.
Proof.
  intros Hl. apply mapM_Some. induction Hl as [|c l (x & ->) _ IH]; by constructor.
Qed.

Lemma parse_dates_ok k t t' :
  parse_dates parse_datetime k t = Ok t' ->
  exists v d, series k t = Ok v /\ mapM to_dt v = Some d /\ t' = setitem k d t.
Proof.
  unfold parse_dates. intros (v & Hv & H)%bind_ok.
  apply bind_ok in H as (d & Hd%checked_ok & [= <-]). by exists v, d.
Qed.

(** What a successful [transform] went through. *)
Lemma transform_ok t iso th tout tot :
  empty t = false ->
  pure t iso th = Ok (tout, tot) ->
  exists first dv parsed cv c kv,
    head (columns (normalize t)) = Some first /\
    let dc := next (filter (fun c => contains "date" c = true) (columns (normalize t))) first in
    series dc (normalize t) = Ok dv /\
    mapM to_dt dv = Some parsed /\
    let t3 := mask_rows (mask_of parsed parsed) (setitem dc parsed (normalize t)) in
    series "confirmed" (resolve_confirmed t3) = Ok cv /\
    mapM to_i (fillna (Int 0) cv) = Some c /\
    let t5 := setitem "confirmed" (Int <$> c) (resolve_confirmed t3) in
    series dc t5 = Ok kv /\
    add_metrics th iso (sort_rows kv t5) = Ok tout /\
    total_of series_max "confirmed" tout = Ok (total_confirmed tot) /\
    total_of series_sum "new_cases" tout = Ok (total_new_cases tot) /\
    country tot = iso.
Proof.
  intros Hempty. unfold transform. rewrite Hempty.
  intros (dc & Hdc & H)%bind_ok.
  unfold date_column in Hdc.
  apply bind_ok in Hdc as (first & Hfirst%checked_ok & [= <-]).
  apply bind_ok in H as (t2 & (dv & parsed & Hdv & Hparsed & ->)%parse_dates_ok & H).
  set (dc := next _ first) in *.
  apply bind_ok in H as (a & Ha & H).
  apply series_setitem_same in Ha as ->.
  apply bind_ok in H as (b & Hb & H).
  apply series_setitem_same in Hb as ->.
  apply bind_ok in H as (t3' & (v3 & d3 & Hv3 & Hd3 & ->)%parse_dates_ok & H).
  assert (d3 = v3) as ->.
  { unfold mask_rows in Hv3. apply series_take_rows in Hv3 as (w & Hw & ->).
    apply series_setitem_same in Hw as ->.
    rewrite (to_datetime_Ts _ (pick_window_Ts parsed)) in Hd3. congruence. }
  rewrite (series_setitem_id _ _ _ Hv3) in H.
  apply bind_ok in H as (t5 & Ht5 & H).
  unfold coerce_confirmed in Ht5.
  apply bind_ok in Ht5 as (cv & Hcv & Ht5).
  apply bind_ok in Ht5 as (c & Hc%checked_ok & [= <-]).
  apply bind_ok in H as (t6 & Ht6 & H).
  unfold sorted_by in Ht6. apply bind_ok in Ht6 as (kv & Hkv & [= <-]).
  apply bind_ok in H as (t7 & Ht7 & H).
  apply bind_ok in H as (tc & Htc & H).
  apply bind_ok in H as (tn & Htn & [= <- <-]).
  exists first, dv, parsed, cv, c, kv. cbn [total_confirmed total_new_cases country].
  repeat split; done.
Qed.

Lemma ints_setitem_other k k' v t :
  String.eqb k k' = false -> ints k' (setitem k v t) = ints k' t.
Proof. intros Hk. unfold ints. by rewrite series_setitem_other. Qed.

Lemma ints_setitem_same k (c c' : list Z) t :
  ints k (setitem k (Int <$> c) t) = Ok c' -> c' = c /\ series k (setitem k (Int <$> c) t) = Ok (Int <$> c).
Proof.
  intros (v & Hv & ->)%ints_series. pose proof Hv as Hv'.
  apply series_setitem_same in Hv as ->. by rewrite to_int_Int.
Qed.

Lemma select_setitem_same k v t :
  select k (setitem k v t) <> [] /\ Forall (eq v) (select k (setitem k v t)).
Proof.
  rewrite select_setitem, String.eqb_refl.
  destruct (select k t) as [|w ws]; [by split; [|repeat constructor]|].
  split; [done|]. apply Forall_fmap, Forall_forall. by intros.
Qed.

Lemma length_diff_from x c : length (diff_from x c) = length c.
Proof. revert x. induction c as [|y c IH]; intros x; cbn; by rewrite ?IH. Qed.

Lemma length_diff c : length (diff c) = length c.
Proof. destruct c; cbn; by rewrite ?length_diff_from. Qed.

Lemma length_shift c : length (shift c) = length c.
Proof.
  destruct c as [|x c]; [done|]. unfold shift.
  cbn [length]. rewrite length_fmap. f_equal.
  change (x :: c) with ([x] ++ c). 
  induction c as [|y c IH] using rev_ind; [done|].
  rewrite app_assoc, removelast_last, !length_app. cbn. lia.
Qed.

Lemma length_new_cases c : length (fillna_with (diff c) c) = length c.
Proof. unfold fillna_with. rewrite length_zip_with, length_diff. lia. Qed.

Lemma length_prev_confirmed c : length (fillna0 (shift c)) = length c.
Proof. unfold fillna0. by rewrite length_fmap, length_shift. Qed.

(** The columns [add_metrics] leaves behind, from the sorted integer
    column [c] it finds under "confirmed". *)
Lemma add_metrics_ok th iso t tout n :
  rows_are n t ->
  add_metrics th iso t = Ok tout ->
  exists cv,
    series "confirmed" t = Ok cv /\
    let c := to_int <$> cv in
    let nc := fillna_with (diff c) c in
    let pc := fillna0 (shift c) in
    series "confirmed" tout = Ok cv /\
    series "new_cases" tout = Ok (Int <$> nc) /\
    series "prev_confirmed" tout = Ok (Int <$> pc) /\
    (select "growth_rate" tout <> [] /\
     Forall (eq (Flt <$> zip_with safe_growth nc pc)) (select "growth_rate" tout)) /\
    (select "risk" tout <> [] /\
     Forall (eq (Str <$> (classify th <$> nc))) (select "risk" tout)) /\
    (select "country" tout <> [] /\
     Forall (eq (replicate n (Str iso))) (select "country" tout)) /\
    rows_are n tout /\
    (forall k, k ∉ ["new_cases"; "prev_confirmed"; "growth_rate"; "risk"; "country"] ->
       select k tout = select k t).
Proof.
  intros Hn. unfold add_metrics.
  intros (c & Hc & H)%bind_ok.
  apply bind_ok in H as (c' & Hc' & H). assert (c' = c) as -> by congruence. clear Hc'.
  apply bind_ok in H as (c0 & Hc0 & H).
  rewrite ints_setitem_other in Hc0 by done. assert (c0 = c) as -> by congruence.
  clear Hc0.
  apply bind_ok in H as (nc & Hnc & H).
  rewrite ints_setitem_other in Hnc by done.
  apply ints_setitem_same in Hnc as [-> Hnc].
  apply bind_ok in H as (pc & Hpc & H).
  apply ints_setitem_same in Hpc as [-> Hpc].
  apply bind_ok in H as (n0 & Hn0 & H).
  rewrite !ints_setitem_other in Hn0 by done.
  apply ints_setitem_same in Hn0 as [-> _].
  injection H as <-.
  apply ints_series in Hc as (cv & Hcv & ->).
  exists cv. split; [done|]. cbn zeta.
  set (c := to_int <$> cv) in *.
  assert (length cv = n) as Hlen by (by eapply rows_are_series).
  assert (length c = n) as Hlenc by (unfold c; by rewrite length_fmap).
  set (t1 := setitem "new_cases" _ t) in *.
  assert (rows_are n t1) as Ht1.
  { apply rows_are_setitem; [done|]. by rewrite length_fmap, length_new_cases. }
  set (t2 := setitem "prev_confirmed" _ t1) in *.
  assert (rows_are n t2) as Ht2.
  { apply rows_are_setitem; [done|]. by rewrite length_fmap, length_prev_confirmed. }
  set (t3 := setitem "growth_rate" _ t2) in *.
  assert (rows_are n t3) as Ht3.
  { apply rows_are_setitem; [done|].
    rewrite length_fmap, length_zip_with, length_new_cases, length_prev_confirmed. lia. }
  set (t4 := setitem "risk" _ t3) in *.
  assert (rows_are n t4) as Ht4.
  { apply rows_are_setitem; [done|]. by rewrite !length_fmap, length_new_cases. }
  rewrite (rows_are_nrows n t4 Ht4 (setitem_nonempty _ _ _)).
  repeat split.
  - unfold t4, t3, t2, t1. by rewrite !series_setitem_other.
  - unfold t4, t3, t2. by rewrite !series_setitem_other.
  - unfold t4, t3. by rewrite !series_setitem_other.
  - unfold t4. rewrite !select_setitem. cbn. apply select_setitem_same.
  - unfold t4. rewrite !select_setitem. cbn. apply select_setitem_same.
  - rewrite !select_setitem. cbn. apply select_setitem_same.
  - rewrite !select_setitem. cbn. apply select_setitem_same.
  - apply select_setitem_same.
  - apply select_setitem_same.
  - apply rows_are_setitem; [done|]. by rewrite length_replicate.
  - intros k Hk. rewrite !not_elem_of_cons in Hk.
    destruct Hk as (H1 & H2 & H3 & H4 & H5 & _).
    unfold t4, t3, t2, t1. rewrite !select_setitem.
    by rewrite !(proj2 (String.eqb_neq _ _)) by congruence.
Qed.

(** *** The indexer of [sort_values] *)

#[local] Instance key_le_total : Total key_le.
Proof. intros a b. unfold key_le. lia. Qed.

#[local] Instance key_le_trans : Transitive key_le.
Proof. intros a b c. unfold key_le. lia. Qed.


Lemma argsort_perm keys : argsort keys ≡ₚ seq 0 (length keys).
Proof.
  unfold argsort. rewrite merge_sort_Permutation, snd_zip; [done|].
  by rewrite length_seq.
Qed.

Lemma argsort_length keys : length (argsort keys) = length keys.
Proof. by rewrite argsort_perm, length_seq. Qed.

Lemma argsort_range keys : Forall (fun i => (i < length keys)%nat) (argsort keys).
Proof.
  rewrite argsort_perm. apply Forall_forall. intros i Hi%elem_of_seq. lia.
Qed.


Lemma pick_Int idx (c : list Z) :
  Forall (fun i => (i < length c)%nat) idx ->
  pick idx (Int <$> c) = Int <$> (key_at c <$> idx).
Proof.
  intros Hidx. unfold pick. rewrite <- list_fmap_compose.
  apply Forall_fmap_ext_1. eapply Forall_impl; [exact Hidx|].
  intros i Hi. unfold key_at. cbn. rewrite list_lookup_fmap.
  destruct (lookup_lt_is_Some_2 c i Hi) as [z ->]. done.
Qed.

Lemma take_rows_nonempty idx t : t <> [] -> take_rows idx t <> [].
Proof. by destruct t. Qed.

Lemma rename_nonempty old new_ t : t <> [] -> rename old new_ t <> [].
Proof. by destruct t. Qed.

Lemma rows_are_resolve_confirmed n t :
  rows_are n t -> t <> [] -> rows_are n (resolve_confirmed t).
Proof.
  intros Hn Ht. unfold resolve_confirmed. cbv zeta.
  set (t' := if (_ && _)%bool then _ else t).
  assert (rows_are n t' /\ t' <> []) as [Hn' Ht'].
  { unfold t'. destruct (_ && _)%bool; [|done].
    split; [by apply rows_are_rename | by apply rename_nonempty]. }
  clearbody t'. destruct (negb _); [|done].
  apply rows_are_setitem; [done|]. by rewrite length_replicate, (rows_are_nrows n).
Qed.

Lemma total_of_ok f k tout n (c : list Z) x :
  rows_are n tout -> length c = n -> f [] = 0 ->
  series k tout = Ok (Int <$> c) ->
  total_of f k tout = Ok x -> x = f c.
Proof.
  intros Hn Hc Hf Hk. unfold total_of, empty.
  rewrite (rows_are_nrows n tout Hn (series_nonempty _ _ _ Hk)).
  destruct (Nat.eqb_spec n 0) as [->|_].
  - apply nil_length_inv in Hc as ->. by intros [= <-].
  - unfold ints. rewrite Hk. cbn. rewrite to_int_Int. by intros [= <-].
Qed.

(** The columns of the frame a successful run returns, from the sorted
    integer column [c] it holds under "confirmed"; and its totals. *)
Lemma transform_columns t iso th tout tot :
  empty t = false ->
  pure t iso th = Ok (tout, tot) ->
  exists c : list Z,
    let nc := fillna_with (diff c) c in
    let pc := fillna0 (shift c) in
    series "confirmed" tout = Ok (Int <$> c) /\
    series "new_cases" tout = Ok (Int <$> nc) /\
    series "prev_confirmed" tout = Ok (Int <$> pc) /\
    (select "growth_rate" tout <> [] /\
     Forall (eq (Flt <$> zip_with safe_growth nc pc)) (select "growth_rate" tout)) /\
    (select "risk" tout <> [] /\
     Forall (eq (Str <$> (classify th <$> nc))) (select "risk" tout)) /\
    (select "country" tout <> [] /\
     Forall (eq (replicate (length c) (Str iso))) (select "country" tout)) /\
    rows_are (length c) tout /\
    tot = Totals iso (series_max c) (series_sum nc).
Proof.
  intros Hempty Hrun.
  destruct (transform_ok t iso th tout tot Hempty Hrun)
    as (first & dv & parsed & cv & c0 & kv & Hfirst & Hdv & Hparsed & Hcv & Hc0 & Hkv
        & Hmetrics & Htc & Htn & Hiso).
  cbn zeta in *.
  set (dc := next _ first) in *.
  set (pos := nonzero (mask_of parsed parsed)) in *.
  set (t3 := mask_rows _ _) in *.
  set (t4 := resolve_confirmed t3) in *.
  set (t5 := setitem "confirmed" _ t4) in *.
  set (order := argsort (sort_key <$> kv)).
  assert (rows_are (length pos) t4) as Ht4.
  { apply rows_are_resolve_confirmed; [apply rows_are_take_rows|].
    apply take_rows_nonempty, setitem_nonempty. }
  assert (length c0 = length pos) as Hlen0.
  { apply length_mapM in Hc0. rewrite <- Hc0. unfold fillna. rewrite length_fmap.
    by eapply rows_are_series. }
  assert (rows_are (length pos) t5) as Ht5.
  { apply rows_are_setitem; [done|]. by rewrite length_fmap. }
  assert (length kv = length pos) as Hlenk by (by eapply rows_are_series).
  assert (rows_are (length order) (sort_rows kv t5)) as Ht6 by apply rows_are_take_rows.
  destruct (add_metrics_ok th iso _ tout _ Ht6 Hmetrics)
    as (cv6 & Hcv6 & Hconf & Hnc & Hpc & Hgrowth & Hrisk & Hcountry & Hrows & _).
  apply series_take_rows in Hcv6 as (v5 & Hv5 & ->).
  apply series_setitem_same in Hv5 as ->.
  assert (Forall (fun i => (i < length c0)%nat) order) as Hrange.
  { unfold order. eapply Forall_impl; [apply argsort_range|].
    intros i. rewrite length_fmap. lia. }
  pose proof (pick_Int _ _ Hrange) as Hpick. unfold order in Hpick.
  rewrite Hpick in Hconf, Hnc, Hpc, Hgrowth, Hrisk. clear Hpick.
  rewrite to_int_Int in Hnc, Hpc, Hgrowth, Hrisk.
  fold order in Hconf, Hnc, Hpc, Hgrowth, Hrisk.
  set (c := key_at c0 <$> order) in *.
  assert (length c = length order) as Hlenc by (unfold c; by rewrite length_fmap).
  rewrite <- Hlenc in *.
  exists c. cbn zeta. do 7 (split; [done|]).
  destruct tot as [iso' tc tn]. cbn in *. subst iso'. f_equal.
  - eapply (total_of_ok series_max); eauto.
  - eapply (total_of_ok series_sum); eauto. by rewrite length_new_cases.
Qed.

(** *** From a run to [transform] *)

Lemma process_returns h df t iso th out tot h' :
  h !! df = Some t ->
  process df iso th h = (Ok (out, tot), h') ->
  exists tout, h' !! out = Some tout /\ pure t iso th = Ok (tout, tot).
Proof.
  intros Hdf Hrun.
  destruct (process_country_df_run today parse_datetime int_of_value h df t iso th Hdf)
    as (hs & Hh & Hres).
  rewrite Hrun in Hh, Hres. cbn in Hh, Hres. subst h'.
  destruct (pure t iso th) as [[tout tot']|e]; [|done].
  destruct Hres as [-> Hout]. by exists tout.
Qed.


Lemma process_extends h df t iso th :
  h !! df = Some t ->
  exists hs, (process df iso th h).2 = h ++ hs.
Proof.
  intros Hdf.
  destruct (process_country_df_run today parse_datetime int_of_value h df t iso th Hdf)
    as (hs & Hh & _).
  by exists hs.
Qed.

(** *** Differences, shifts, sums *)













(** ** The claims about the metric calculator *)


(** C7.  In the frame a run returns, every growth-rate column holds, row
    by row, the quotient of new cases by previous confirmed where the
    latter is positive, and the float zero everywhere else: the
    division is never reached with a divisor that is not positive. *)
Theorem growth_rate_guarded h df t iso th out tot h' tout :
  h !! df = Some t ->
  empty t = false ->
  process df iso th h = (Ok (out, tot), h') ->
  h' !! out = Some tout ->
  exists (nc pc : list Z) (g : list float),
    series "new_cases" tout = Ok (Int <$> nc) /\
    series "prev_confirmed" tout = Ok (Int <$> pc) /\
    select "growth_rate" tout <> [] /\
    Forall (eq (Flt <$> g)) (select "growth_rate" tout) /\
    length g = length nc /\ length pc = length nc /\
    (forall i n p, nc !! i = Some n -> pc !! i = Some p ->
       g !! i = Some (safe_growth n p) /\
       (0 < p -> safe_growth n p = true_div n p) /\
       (p <= 0 -> safe_growth n p = 0%float)).
Proof.
  intros Hdf Hempty Hrun Hout.
  destruct (process_returns _ _ _ _ _ _ _ _ Hdf Hrun) as (tout' & Hout' & Hpure).
  assert (tout' = tout) as -> by congruence.
  destruct (transform_columns _ _ _ _ _ Hempty Hpure)
    as (c & Hc & Hnc & Hpc & [Hg1 Hg2] & _).
  exists (new_cases_of c), (prev_confirmed_of c),
    (zip_with safe_growth (new_cases_of c) (prev_confirmed_of c)).
  split_and!; try done.
  - unfold new_cases_of, prev_confirmed_of.
    rewrite length_zip_with, length_new_cases, length_prev_confirmed. lia.
  - unfold new_cases_of, prev_confirmed_of.
    by rewrite length_new_cases, length_prev_confirmed.
  - intros i n p Hn Hp. split_and!.
    + rewrite lookup_zip_with, Hn. cbn. by rewrite Hp.
    + intros Hpos. unfold safe_growth.
      by destruct (Z.gtb_spec p 0); [|lia].
    + intros Hpos. unfold safe_growth.
      by destruct (Z.gtb_spec p 0); [lia|].
Qed.


(** C10.  Whatever the call ends in, every object the store held before
    it is there unchanged after it, the frame passed as argument among
    them. *)
Theorem process_keeps_the_store h df t iso th l x :
  h !! df = Some t ->
  h !! l = Some x ->
  (process_country_df today parse_datetime int_of_value df iso th h).2 !! l = Some x.
Proof.
  intros Hdf Hl. destruct (process_extends h df t iso th Hdf) as (hs & ->).
  by apply lookup_app_l_Some.
Qed.

(** ** The time window *)


Lemma bool_decide_column k t : bool_decide (k ∈ columns t) = has_column k t.
Proof.
  destruct (has_column k t) eqn:Hk.
  - by apply bool_decide_eq_true, has_column_elem.
  - apply bool_decide_eq_false. rewrite <- has_column_elem. congruence.
Qed.

Lemma resolve_confirmed_id t :
  has_column "confirmed" t = true -> resolve_confirmed t = t.
Proof.
  intros Hc. unfold resolve_confirmed. cbv zeta.
  rewrite !bool_decide_column, Hc. cbn [negb andb]. by rewrite Hc.
Qed.













(** ** What a run raises *)

Lemma columns_set_columns names t :
  length names = length t -> columns (set_columns names t) = names.
Proof.
  unfold columns, set_columns. revert t.
  induction names as [|n names IH]; intros [|c t] Hlen; try done.
  cbn in *. f_equal. apply IH. lia.
Qed.

Lemma columns_normalize t : columns (normalize t) = to_snake_case <$> columns t.
Proof.
  unfold normalize. apply columns_set_columns. unfold columns. by rewrite !length_fmap.
Qed.

Lemma columns_setitem k v t :
  columns (setitem k v t) = if has_column k t then columns t else columns t ++ [k].
Proof.
  unfold setitem. destruct (has_column k t); unfold columns.
  - rewrite <- list_fmap_compose. apply list_fmap_ext. intros _ c _. cbn.
    destruct (String.eqb (label c) k) eqn:Hc; [|done].
    by apply String.eqb_eq in Hc.
  - by rewrite fmap_app.
Qed.

Lemma columns_take_rows idx t : columns (take_rows idx t) = columns t.
Proof. unfold columns, take_rows. by rewrite <- list_fmap_compose. Qed.

Lemma columns_rename old new_ t :
  columns (rename old new_ t) =
  (fun l => if String.eqb l old then new_ else l) <$> columns t.
Proof.
  unfold columns, rename. rewrite <- !list_fmap_compose.
  apply list_fmap_ext. intros _ c _. cbn. by destruct (String.eqb (label c) old).
Qed.


Lemma elem_of_columns_setitem k k' v t :
  k' ∈ columns (setitem k v t) <-> k' = k \/ k' ∈ columns t.
Proof.
  rewrite columns_setitem. destruct (has_column k t) eqn:Hk.
  - apply has_column_elem in Hk. split; [auto|]. by intros [->|?].
  - rewrite elem_of_app, list_elem_of_singleton. tauto.
Qed.




Lemma has_column_rename old new_ t :
  has_column old t = true -> has_column new_ (rename old new_ t) = true.
Proof.
  rewrite !has_column_elem, columns_rename. intros Ho.
  apply list_elem_of_fmap. exists old. by rewrite String.eqb_refl.
Qed.

Lemma resolve_confirmed_rename t :
  has_column "confirmed" t = false -> has_column "cases" t = true ->
  resolve_confirmed t = rename "cases" "confirmed" t.
Proof.
  intros Hc Hcs. unfold resolve_confirmed. cbv zeta.
  rewrite !bool_decide_column, Hc, Hcs. cbn [negb andb].
  by rewrite (has_column_rename _ _ _ Hcs).
Qed.

Lemma resolve_confirmed_fresh t :
  has_column "confirmed" t = false -> has_column "cases" t = false ->
  resolve_confirmed t = setitem "confirmed" (replicate (nrows t) (Int 0)) t.
Proof.
  intros Hc Hcs. unfold resolve_confirmed. cbv zeta.
  rewrite !bool_decide_column, Hc, Hcs. cbn [negb andb]. by rewrite Hc.
Qed.










(** ** The coercion of the confirmed column, and the rows of spec 8.7 *)


Lemma transform_spec_rows iso :
  parse_datetime (Str "2024-01-01") = Some (Some Sample.jan_1) ->
  parse_datetime (Str "2024-01-02") = Some (Some Sample.jan_2) ->
  today - timedelta_days 30 <= Sample.jan_1 ->
  Sample.jan_2 <= today ->
  pure Sample.raw iso Sample.thresholds = Ok (Sample.enriched iso, Totals iso 25 25).
Proof.
  intros H1 H2 Hlo Hhi.
  assert (Sample.jan_1 < Sample.jan_2) as Hlt by done.
  unfold transform.
  change (empty Sample.raw) with false. cbv iota zeta.
  change (normalize Sample.raw) with Sample.raw.
  change (date_column (columns Sample.raw)) with (@Ok string "date").
  cbn [mbind outcome_bind].
  assert (parse_dates parse_datetime "date" Sample.raw =
          Ok [Col "date" [Ts Sample.jan_1; Ts Sample.jan_2];
              Col "confirmed" [Int 10; Int 25]]) as ->.
  { unfold parse_dates.
    change (series "date" Sample.raw) with (Ok [Str "2024-01-01"; Str "2024-01-02"]).
    cbn [mbind outcome_bind].
    assert (mapM to_dt [Str "2024-01-01"; Str "2024-01-02"] =
            Some [Ts Sample.jan_1; Ts Sample.jan_2]) as ->; [|done].
    apply mapM_Some.
    repeat constructor; unfold to_datetime_value; cbn [isna]; by rewrite ?H1, ?H2. }
  cbn [mbind outcome_bind].
  set (t2 := [Col "date" _; _]).
  change (series "date" t2) with (Ok [Ts Sample.jan_1; Ts Sample.jan_2]).
  cbn [mbind outcome_bind].
  assert (mask_of [Ts Sample.jan_1; Ts Sample.jan_2] [Ts Sample.jan_1; Ts Sample.jan_2]
          = [true; true]) as ->.
  { unfold window_mask. cbn [fmap list_fmap zip_with ge_datetime le_datetime].
    rewrite !(proj2 (Z.leb_le _ _)) by lia. done. }
  change (mask_rows [true; true] t2) with t2.
  assert (parse_dates parse_datetime "date" t2 = Ok t2) as ->.
  { unfold parse_dates.
    change (series "date" t2) with (Ok [Ts Sample.jan_1; Ts Sample.jan_2]).
    done. }
  cbn [mbind outcome_bind]. subst t2.
  change (resolve_confirmed ?t) with t.
  vm_compute. reflexivity.
Qed.

(** C1, as the code has it.  For the rows of spec 8.7, thresholds
    low 5 and medium 20, and any instant whose window holds both dates,
    the call returns new cases 10 and 15, previous confirmed 0 and 10,
    growth rates 0.0 and 1.5, totals 25 and 25, and the risk "medio" on
    both rows: the classifier reads the new cases, and 15 does not
    exceed 20. *)
Theorem spec_rows_end_to_end h df iso :
  h !! df = Some Sample.raw ->
  parse_datetime (Str "2024-01-01") = Some (Some Sample.jan_1) ->
  parse_datetime (Str "2024-01-02") = Some (Some Sample.jan_2) ->
  today - timedelta_days 30 <= Sample.jan_1 ->
  Sample.jan_2 <= today ->
  exists out h',
    process df iso Sample.thresholds h = (Ok (out, Totals iso 25 25), h') /\
    h' !! out = Some (Sample.enriched iso).
Proof.
  intros Hdf H1 H2 Hlo Hhi.
  destruct (process_country_df_run today parse_datetime int_of_value h df
              Sample.raw iso Sample.thresholds Hdf) as (hs & Hh & Hres).
  rewrite (transform_spec_rows iso H1 H2 Hlo Hhi) in Hres.
  destruct (process df iso Sample.thresholds h) as [[[out tot]|e] h'] eqn:Hrun;
    cbn in Hh, Hres; [|done].
  destruct Hres as [-> Hout]. subst h'. by exists out, (h ++ hs).
Qed.

End Stages.

(** ** The classifier, with any cutoffs *)

(** C2, as the code has it.  For any thresholds and any integer the
    classifier returns one of the three tiers: "alto" exactly above the
    medium cutoff, "medio" exactly above the low cutoff and not above
    the medium one, "bajo" exactly otherwise; absent cutoffs are 1000
    and 10000.  A negative count is "bajo" when neither cutoff is below
    -1; with lower cutoffs it is not. *)
Theorem classify_tiers (th : gmap string Z) (n : Z) :
  let medium := default 10000 (th !! "medium") in
  let low := default 1000 (th !! "low") in
  (classify th n = "alto" <-> n > medium) /\
  (classify th n = "medio" <-> low < n <= medium) /\
  (classify th n = "bajo" <-> n <= medium /\ n <= low) /\
  (classify th n = "alto" \/ classify th n = "medio" \/ classify th n = "bajo") /\
  (n < 0 -> -1 <= low -> -1 <= medium -> classify th n = "bajo") /\
  (classify ∅ n = "alto" <-> n > 10000) /\
  classify Sample.thresholds_config 50 = "bajo" /\
  classify Sample.thresholds_config 100 = "bajo" /\
  classify Sample.thresholds_config 101 = "medio" /\
  classify Sample.thresholds_config 500 = "medio" /\
  classify Sample.thresholds_config 501 = "alto".
Proof.
  intros medium low.
  destruct (classify_cases th n) as (Ha & Hm & Hb). fold medium low in Ha, Hm, Hb.
  destruct (classify_cases ∅ n) as (He & _).
  split; [exact Ha|]. split; [exact Hm|]. split; [exact Hb|]. split.
  { destruct (Z_gt_le_dec n medium) as [?|?]; [left; by apply Ha|].
    destruct (Z_lt_le_dec low n) as [?|?]; [right; left; by apply Hm|].
    right; right. by apply Hb. }
  split; [intros Hn Hl Hmed; apply Hb; lia|].
  split; [exact He|].
  by vm_compute.
Qed.

Lemma classify_tiers_witness :
  classify Sample.thresholds_config (-7) = "bajo".
Proof.
  apply (classify_tiers Sample.thresholds_config (-7)); vm_compute; discriminate.
Defined.

(** Cutoffs below zero: the count -1 is above both. *)
Lemma classify_negative_alto :
  classify Sample.thresholds_below_zero (-1) = "alto" /\ -1 < 0.
Proof. split; [vm_compute; reflexivity | lia]. Qed.

(** ** Concrete runs *)

Module Runs.

Abbreviation run :=
  (process_country_df Sample.noon_jan_15 Sample.parse_datetime Sample.int_of_value).

Lemma run_raw :
  run 0%nat "MX" Sample.thresholds [Sample.raw] =
  (Ok (3%nat, Totals "MX" 25 25), Sample.after_run).
Proof. vm_compute. reflexivity. Qed.

End Runs.

(** The code on the rows of spec 8.7: the second row is "medio". *)
Lemma spec_rows_risk_is_medio :
  Runs.run 0%nat "MX" Sample.thresholds [Sample.raw] =
    (Ok (3%nat, Totals "MX" 25 25), Sample.after_run) /\
  Sample.after_run !! 3%nat = Some (Sample.enriched "MX") /\
  series "risk" (Sample.enriched "MX") = Ok [Str "medio"; Str "medio"] /\
  classify Sample.thresholds 15 = "medio".
Proof. split_and!; vm_compute; reflexivity. Qed.

Lemma spec_rows_end_to_end_witness :
  exists out h',
    Runs.run 0%nat "MX" Sample.thresholds [Sample.raw] =
      (Ok (out, Totals "MX" 25 25), h') /\
    h' !! out = Some (Sample.enriched "MX").
Proof.
  apply (spec_rows_end_to_end Sample.noon_jan_15 Sample.parse_datetime
           Sample.int_of_value [Sample.raw] 0%nat "MX");
    vm_compute; first [reflexivity | discriminate].
Defined.




Lemma growth_rate_guarded_witness :
  exists (nc pc : list Z) (g : list float),
    series "new_cases" (Sample.enriched "MX") = Ok (Int <$> nc) /\
    series "prev_confirmed" (Sample.enriched "MX") = Ok (Int <$> pc) /\
    select "growth_rate" (Sample.enriched "MX") <> [] /\
    Forall (eq (Flt <$> g)) (select "growth_rate" (Sample.enriched "MX")) /\
    length g = length nc /\ length pc = length nc /\
    (forall i n p, nc !! i = Some n -> pc !! i = Some p ->
       g !! i = Some (safe_growth n p) /\
       (0 < p -> safe_growth n p = true_div n p) /\
       (p <= 0 -> safe_growth n p = 0%float)).
Proof.
  apply (growth_rate_guarded Sample.noon_jan_15 Sample.parse_datetime
           Sample.int_of_value [Sample.raw] 0%nat Sample.raw "MX" Sample.thresholds
           3%nat (Totals "MX" 25 25) Sample.after_run (Sample.enriched "MX"));
    vm_compute; reflexivity.
Defined.


Lemma process_keeps_the_store_witness :
  (Runs.run 0%nat "MX" Sample.thresholds [Sample.raw]).2 !! 0%nat = Some Sample.raw.
Proof.
  apply (process_keeps_the_store Sample.noon_jan_15 Sample.parse_datetime
           Sample.int_of_value [Sample.raw] 0%nat Sample.raw "MX" Sample.thresholds
           0%nat Sample.raw); reflexivity.
Defined.




(** * Further properties of the transform stage *)

Section More.

Variable today : Z.
Variable parse_datetime : cell -> option (option Z).
Variable int_of_value : cell -> option Z.

Abbreviation process' := (process_country_df today parse_datetime int_of_value).
Abbreviation pure' := (transform today parse_datetime int_of_value).

(** X1.  An empty frame (no column, or no row) comes back as it is: the
    call returns the reference it was given, not a copy, with totals 0,
    and the store is untouched. *)
Theorem empty_input_passes_through h df t iso th :
  h !! df = Some t ->
  empty t = true ->
  process_country_df today parse_datetime int_of_value df iso th h =
  (Ok (df, Totals iso 0 0), h).
Proof.
  intros Hdf Hempty. unfold process_country_df.
  unfold bind at 1, df_empty at 1, bind at 1, deref at 1, ret at 1.
  rewrite Hdf. cbn [from_option id]. by rewrite Hempty.
Qed.

Lemma bind_ret_r {A} (m : M A) (h : store) : bind m ret h = m h.
Proof. unfold bind, ret. by destruct (m h) as [[a|e] h']. Qed.

Lemma values_set_columns names t :
  length names = length t -> values <$> set_columns names t = values <$> t.
Proof.
  unfold set_columns. revert t.
  induction names as [|n names IH]; intros [|c t] Hlen; try done.
  cbn in *. f_equal. apply IH. lia.
Qed.

(** X2.  [normalize_columns] returns a new frame and leaves its argument
    alone; the new frame has the same columns in the same order with
    the same values, each label replaced by its snake-case form, which
    is written in [a-z0-9_] only. *)
Theorem normalize_columns_contract h df t :
  h !! df = Some t ->
  exists t',
    normalize_columns df h = (Ok (length h), h ++ [t']) /\
    columns t' = to_snake_case <$> columns t /\
    values <$> t' = values <$> t /\
    nrows t' = nrows t /\
    Forall (fun k => canonical k = true) (columns t').
Proof.
  intros Hdf. exists (normalize t). split_and!.
  - rewrite <- (bind_ret_r (normalize_columns df) h).
    rewrite <- (app_nil_r h) at 1. rewrite <- (app_nil_r h) in Hdf.
    rewrite (run_normalize_columns h [] df t ret Hdf). cbn. unfold ret.
    by rewrite Nat.add_0_r.
  - apply columns_normalize.
  - apply values_set_columns. unfold columns. by rewrite !length_fmap.
  - unfold normalize, set_columns, columns. by destruct t.
  - rewrite columns_normalize. apply Forall_fmap, Forall_forall.
    intros k _. apply to_snake_case_canonical.
Qed.

(** X3.  The frame a run returns is rectangular: every column has as
    many rows as the confirmed column; every "country" column holds
    the country code in each row, and every "risk" column holds, row by
    row, the tier of that row's new cases. *)
Theorem enriched_frame_is_rectangular h df t iso th out tot h' tout :
  h !! df = Some t ->
  empty t = false ->
  process_country_df today parse_datetime int_of_value df iso th h = (Ok (out, tot), h') ->
  h' !! out = Some tout ->
  exists c nc : list Z,
    series "confirmed" tout = Ok (Int <$> c) /\
    series "new_cases" tout = Ok (Int <$> nc) /\
    Forall (fun col => length (values col) = length c) tout /\
    select "country" tout <> [] /\
    Forall (eq (replicate (length c) (Str iso))) (select "country" tout) /\
    select "risk" tout <> [] /\
    Forall (eq (Str <$> (classify th <$> nc))) (select "risk" tout) /\
    country tot = iso.
Proof.
  intros Hdf Hempty Hrun Hout.
  destruct (process_returns _ _ _ _ _ _ _ _ _ _ _ Hdf Hrun) as (tout' & Hout' & Hpure).
  assert (tout' = tout) as -> by congruence.
  destruct (transform_columns _ _ _ _ _ _ _ _ Hempty Hpure)
    as (c & Hc & Hnc & _ & _ & [Hr1 Hr2] & [Hc1 Hc2] & Hrows & ->).
  exists c, (new_cases_of c). by split_and!.
Qed.

Lemma classify_ignores_high (th : gmap string Z) (x n : Z) :
  classify (<["high" := x]> th) n = classify th n /\
  classify (delete "high" th) n = classify th n.
Proof.
  unfold classify. by rewrite !lookup_insert_ne, !lookup_delete_ne.
Qed.

(** X4.  More new cases never lower the tier: if [n <= m] then "alto"
    for [n] gives "alto" for [m], and "bajo" for [m] gives "bajo" for
    [n]; and when the low cutoff is not below the medium one, no count
    is "medio". *)
Theorem classify_monotone (th : gmap string Z) (n m : Z) :
  n <= m ->
  (classify th n = "alto" -> classify th m = "alto") /\
  (classify th m = "bajo" -> classify th n = "bajo") /\
  (default 10000 (th !! "medium") <= default 1000 (th !! "low") ->
   classify th n <> "medio").
Proof.
  intros Hnm.
  destruct (classify_cases th n) as (Han & Hmn & Hbn).
  destruct (classify_cases th m) as (Ham & Hmm & Hbm).
  split_and!.
  - intros H. apply Ham. apply Han in H. lia.
  - intros H. apply Hbn. apply Hbm in H. lia.
  - intros Hc H. apply Hmn in H. lia.
Qed.

Lemma add_metrics_ext th th' iso t :
  (forall n, classify th' n = classify th n) ->
  add_metrics th' iso t = add_metrics th iso t.
Proof.
  intros Hext. unfold add_metrics.
  destruct (ints "confirmed" t) as [c|]; [|done]. cbn [mbind outcome_bind].
  destruct (ints "confirmed" _) as [c0|]; [|done]. cbn [mbind outcome_bind].
  destruct (ints "new_cases" _) as [n|]; [|done]. cbn [mbind outcome_bind].
  destruct (ints "prev_confirmed" _) as [p|]; [|done]. cbn [mbind outcome_bind].
  destruct (ints "new_cases" _) as [n0|]; [|done]. cbn [mbind outcome_bind].
  by rewrite (list_fmap_ext (classify th') (classify th) n0) by (intros; apply Hext).
Qed.

Lemma transform_ext th th' iso t :
  (forall n, classify th' n = classify th n) ->
  pure' t iso th' = pure' t iso th.
Proof.
  intros Hext. unfold transform. destruct (empty t); [done|]. cbv zeta.
  destruct (date_column _) as [dc|]; [|done]. cbn [mbind outcome_bind].
  destruct (parse_dates _ _ _) as [t2|]; [|done]. cbn [mbind outcome_bind].
  destruct (series dc t2) as [a|]; [|done]. cbn [mbind outcome_bind].
  destruct (parse_dates _ _ _) as [t3|]; [|done]. cbn [mbind outcome_bind].
  destruct (coerce_confirmed _ _) as [t5|]; [|done]. cbn [mbind outcome_bind].
  destruct (sorted_by _ _) as [t6|]; [|done]. cbn [mbind outcome_bind].
  by rewrite (add_metrics_ext th th' iso t6 Hext).
Qed.

(** X5.  The "high" cutoff of the configuration is never read: with any
    value under "high", a run ends as it does without: the same
    exception, or the same totals and the same returned frame. *)
Theorem process_ignores_high h df t iso th x :
  h !! df = Some t ->
  match (process_country_df today parse_datetime int_of_value df iso
           (<["high" := x]> th) h),
        (process_country_df today parse_datetime int_of_value df iso th h) with
  | (Ok (out1, tot1), h1), (Ok (out2, tot2), h2) =>
      tot1 = tot2 /\ h1 !! out1 = h2 !! out2
  | (Raise e1, _), (Raise e2, _) => e1 = e2
  | _, _ => False
  end.
Proof.
  intros Hdf.
  destruct (process_country_df_run today parse_datetime int_of_value h df t iso
              (<["high" := x]> th) Hdf) as (hs1 & Hh1 & Hr1).
  destruct (process_country_df_run today parse_datetime int_of_value h df t iso
              th Hdf) as (hs2 & Hh2 & Hr2).
  rewrite (transform_ext th (<["high" := x]> th)) in Hr1
    by (intros n; apply classify_ignores_high).
  destruct (process_country_df _ _ _ df iso (<["high" := x]> th) h) as [[[o1 t1]|e1] h1];
    destruct (process_country_df _ _ _ df iso th h) as [[[o2 t2]|e2] h2];
    cbn in *; destruct (pure' t iso th) as [[tout tot]|e]; try done.
  - destruct Hr1 as [-> Ho1], Hr2 as [-> Ho2]. subst. split; [done|]. congruence.
  - congruence.
Qed.

Lemma filter_first_match {A} (P : A -> Prop) `{!forall x, Decision (P x)} (l : list A) :
  match filter P l with
  | x :: _ => exists pre post, l = pre ++ x :: post /\ P x /\ Forall (fun y => ~ P y) pre
  | [] => Forall (fun y => ~ P y) l
  end.
Proof.
  induction l as [|a l IH]; [by cbn|]. rewrite filter_cons.
  destruct (decide (P a)) as [Ha|Ha].
  - by exists [], l.
  - destruct (filter P l) as [|x r].
    + by constructor.
    + destruct IH as (pre & post & -> & Hx & Hpre).
      exists (a :: pre), post. split_and!; [done|done|by constructor].
Qed.

(** X6.  The date column is the first column whose name contains
    "date" as a substring (so "last_update" qualifies), whatever comes
    after it; when no name does, it is the first column; a frame
    without columns has none. *)
Theorem date_column_is_first_match (names : list string) (dc : string) :
  date_column names = Ok dc ->
  (exists pre post,
     names = pre ++ dc :: post /\
     Forall (fun k => contains "date" k <> true) pre /\
     (contains "date" dc = true \/
      (pre = [] /\ Forall (fun k => contains "date" k <> true) names))) /\
  date_column [] = Raise IndexError /\
  contains "date" (to_snake_case "lastUpdate") = true.
Proof.
  unfold date_column. intros Hdc. split; [|by split].
  destruct (head names) as [first|] eqn:Hfirst; [|done].
  cbn in Hdc. injection Hdc as <-.
  pose proof (filter_first_match (fun c => contains "date" c = true) names) as Hf.
  destruct (filter _ names) as [|x r]; cbn.
  - destruct names as [|n names]; [done|]. injection Hfirst as ->.
    exists [], names. split_and!; [done|constructor|right; by split].
  - destruct Hf as (pre & post & -> & Hx & Hpre). exists pre, post. auto.
Qed.

Lemma fold_max_bounds x c :
  x <= fold_left Z.max c x /\ Forall (fun y => y <= fold_left Z.max c x) c /\
  fold_left Z.max c x ∈ x :: c.
Proof.
  revert x. induction c as [|y c IH]; intros x; cbn [fold_left].
  - split_and!; [lia|constructor|by left].
  - destruct (IH (Z.max x y)) as (H1 & H2 & H3). split_and!.
    + lia.
    + constructor; [lia|done].
    + apply elem_of_cons in H3 as [H3|H3]; [|by do 2 right].
      rewrite H3. destruct (Z.max_spec x y) as [[_ ->]|[_ ->]]; [right; by left|by left].
Qed.

(** X7.  The total of confirmed cases is the largest value of the
    confirmed column of the returned frame: no value exceeds it, and it
    is one of the values; it is 0 when no row is left. *)
Theorem total_confirmed_is_the_maximum h df t iso th out tot h' tout :
  h !! df = Some t ->
  empty t = false ->
  process_country_df today parse_datetime int_of_value df iso th h = (Ok (out, tot), h') ->
  h' !! out = Some tout ->
  exists c : list Z,
    series "confirmed" tout = Ok (Int <$> c) /\
    Forall (fun y => y <= total_confirmed tot) c /\
    (c <> [] -> total_confirmed tot ∈ c) /\
    (c = [] -> total_confirmed tot = 0 /\ total_new_cases tot = 0).
Proof.
  intros Hdf Hempty Hrun Hout.
  destruct (process_returns _ _ _ _ _ _ _ _ _ _ _ Hdf Hrun) as (tout' & Hout' & Hpure).
  assert (tout' = tout) as -> by congruence.
  destruct (transform_columns _ _ _ _ _ _ _ _ Hempty Hpure)
    as (c & Hc & _ & _ & _ & _ & _ & _ & ->).
  exists c. cbn. split_and!; [done| | |by intros ->].
  - destruct c as [|x c]; [constructor|]. unfold series_max.
    destruct (fold_max_bounds x c) as (H1 & H2 & _). by constructor.
  - destruct c as [|x c]; [done|]. intros _. apply fold_max_bounds.
Qed.

Lemma elem_of_columns_resolve_confirmed k t :
  k ∈ columns (resolve_confirmed t) <->
  k = "confirmed" \/ (k ∈ columns t /\ (k = "cases" -> "confirmed" ∈ columns t)).
Proof.
  destruct (has_column "confirmed" t) eqn:Hc.
  { rewrite resolve_confirmed_id by done. apply has_column_elem in Hc.
    split; [auto|]. by intros [->|[? _]]. }
  assert ("confirmed" ∉ columns t) as Hc' by (rewrite <- has_column_elem; congruence).
  destruct (has_column "cases" t) eqn:Hcs.
  - rewrite resolve_confirmed_rename by done.
    rewrite columns_rename, list_elem_of_fmap. apply has_column_elem in Hcs. split.
    + intros (y & -> & Hy). destruct (String.eqb_spec y "cases") as [->|Hne]; [by left|].
      right. by split.
    + intros [->|[Hk Hcases]]; [by exists "cases"|].
      exists k. destruct (String.eqb_spec k "cases") as [->|Hne]; [|done].
      exfalso. apply Hc'. by apply Hcases.
  - rewrite resolve_confirmed_fresh by done. rewrite elem_of_columns_setitem.
    assert ("cases" ∉ columns t) as Hcs' by (rewrite <- has_column_elem; congruence).
    split.
    + intros [->|Hk]; [by left|]. right. split; [done|]. by intros ->.
    + intros [->|[Hk _]]; auto.
Qed.

Lemma add_metrics_columns th iso t tout k :
  add_metrics th iso t = Ok tout ->
  k ∈ columns tout <->
  k ∈ ["new_cases"; "prev_confirmed"; "growth_rate"; "risk"; "country"] \/ k ∈ columns t.
Proof.
  unfold add_metrics. intros H.
  do 6 (apply bind_ok in H as (? & _ & H)). injection H as <-.
  rewrite !elem_of_columns_setitem, !elem_of_cons, elem_of_nil. tauto.
Qed.

(** X8.  The labels of the frame a run returns: "confirmed" and the five
    derived columns, and every normalized label of the input; only a
    "cases" label is dropped, when the input has no "confirmed" column
    beside it (it is then the one renamed to "confirmed"). *)
Theorem returned_frame_labels h df t iso th out tot h' tout k :
  h !! df = Some t ->
  empty t = false ->
  process_country_df today parse_datetime int_of_value df iso th h = (Ok (out, tot), h') ->
  h' !! out = Some tout ->
  k ∈ columns tout <->
  k ∈ ["confirmed"; "new_cases"; "prev_confirmed"; "growth_rate"; "risk"; "country"] \/
  (k ∈ to_snake_case <$> columns t /\
   (k = "cases" -> "confirmed" ∈ to_snake_case <$> columns t)).
Proof.
  intros Hdf Hempty Hrun Hout.
  destruct (process_returns _ _ _ _ _ _ _ _ _ _ _ Hdf Hrun) as (tout' & Hout' & Hpure).
  assert (tout' = tout) as -> by congruence.
  destruct (transform_ok _ _ _ t iso th tout tot Hempty Hpure)
    as (first & dv & parsed & cv & c0 & kv & Hfirst & Hdv & Hparsed & Hcv & Hc0 & Hkv
        & Hmetrics & _).
  cbn zeta in *.
  set (dc := next _ first) in *.
  rewrite (add_metrics_columns _ _ _ _ k Hmetrics).
  unfold sort_rows. rewrite columns_take_rows, elem_of_columns_setitem,
    elem_of_columns_resolve_confirmed.
  unfold mask_rows. rewrite columns_take_rows.
  assert (forall k', k' ∈ columns (setitem dc parsed (normalize t)) <->
                     k' ∈ to_snake_case <$> columns t) as Hcols.
  { intros k'. rewrite elem_of_columns_setitem, columns_normalize. split; [|auto].
    intros [->|?]; [|done]. rewrite <- columns_normalize. apply select_elem.
    apply series_select in Hdv. congruence. }
  rewrite !Hcols, !elem_of_cons, elem_of_nil. tauto.
Qed.

End More.

(** ** The further properties on concrete tables *)

Lemma empty_input_passes_through_witness :
  Runs.run 0%nat "MX" Sample.thresholds [[Col "date" []; Col "confirmed" []]] =
  (Ok (0%nat, Totals "MX" 0 0), [[Col "date" []; Col "confirmed" []]]).
Proof.
  apply (empty_input_passes_through Sample.noon_jan_15 Sample.parse_datetime
           Sample.int_of_value [[Col "date" []; Col "confirmed" []]] 0%nat
           [Col "date" []; Col "confirmed" []] "MX" Sample.thresholds);
    reflexivity.
Defined.

Lemma normalize_columns_contract_witness :
  exists t',
    normalize_columns 0%nat [Sample.shuffled] =
      (Ok (length [Sample.shuffled]), [Sample.shuffled] ++ [t']) /\
    columns t' = to_snake_case <$> columns Sample.shuffled /\
    values <$> t' = values <$> Sample.shuffled /\
    nrows t' = nrows Sample.shuffled /\
    Forall (fun k => canonical k = true) (columns t').
Proof.
  apply (normalize_columns_contract [Sample.shuffled] 0%nat Sample.shuffled).
  reflexivity.
Defined.

Lemma enriched_frame_is_rectangular_witness :
  exists c nc : list Z,
    series "confirmed" (Sample.enriched "MX") = Ok (Int <$> c) /\
    series "new_cases" (Sample.enriched "MX") = Ok (Int <$> nc) /\
    Forall (fun col => length (values col) = length c) (Sample.enriched "MX") /\
    select "country" (Sample.enriched "MX") <> [] /\
    Forall (eq (replicate (length c) (Str "MX"))) (select "country" (Sample.enriched "MX")) /\
    select "risk" (Sample.enriched "MX") <> [] /\
    Forall (eq (Str <$> (classify Sample.thresholds <$> nc)))
      (select "risk" (Sample.enriched "MX")) /\
    country (Totals "MX" 25 25) = "MX".
Proof.
  apply (enriched_frame_is_rectangular Sample.noon_jan_15 Sample.parse_datetime
           Sample.int_of_value [Sample.raw] 0%nat Sample.raw "MX" Sample.thresholds
           3%nat (Totals "MX" 25 25) Sample.after_run (Sample.enriched "MX"));
    vm_compute; reflexivity.
Defined.

Lemma classify_monotone_witness :
  (classify Sample.thresholds_config 101 = "alto" ->
   classify Sample.thresholds_config 501 = "alto") /\
  (classify Sample.thresholds_config 501 = "bajo" ->
   classify Sample.thresholds_config 101 = "bajo") /\
  (default 10000 (Sample.thresholds_config !! "medium") <=
   default 1000 (Sample.thresholds_config !! "low") ->
   classify Sample.thresholds_config 101 <> "medio").
Proof. apply (classify_monotone Sample.thresholds_config 101 501). lia. Defined.

Lemma process_ignores_high_witness :
  match Runs.run 0%nat "MX" (<["high" := 7]> Sample.thresholds) [Sample.raw],
        Runs.run 0%nat "MX" Sample.thresholds [Sample.raw] with
  | (Ok (out1, tot1), h1), (Ok (out2, tot2), h2) =>
      tot1 = tot2 /\ h1 !! out1 = h2 !! out2
  | (Raise e1, _), (Raise e2, _) => e1 = e2
  | _, _ => False
  end.
Proof.
  apply (process_ignores_high Sample.noon_jan_15 Sample.parse_datetime
           Sample.int_of_value [Sample.raw] 0%nat Sample.raw "MX" Sample.thresholds 7).
  reflexivity.
Defined.

Lemma date_column_is_first_match_witness :
  (exists pre post,
     ["region"; "last_update"; "date"] = pre ++ "last_update" :: post /\
     Forall (fun k => contains "date" k <> true) pre /\
     (contains "date" "last_update" = true \/
      (pre = [] /\
       Forall (fun k => contains "date" k <> true) ["region"; "last_update"; "date"]))) /\
  date_column [] = Raise IndexError /\
  contains "date" (to_snake_case "lastUpdate") = true.
Proof.
  apply (date_column_is_first_match ["region"; "last_update"; "date"] "last_update").
  vm_compute. reflexivity.
Defined.

Lemma total_confirmed_is_the_maximum_witness :
  exists c : list Z,
    series "confirmed" (Sample.enriched "MX") = Ok (Int <$> c) /\
    Forall (fun y => y <= total_confirmed (Totals "MX" 25 25)) c /\
    (c <> [] -> total_confirmed (Totals "MX" 25 25) ∈ c) /\
    (c = [] ->
     total_confirmed (Totals "MX" 25 25) = 0 /\ total_new_cases (Totals "MX" 25 25) = 0).
Proof.
  apply (total_confirmed_is_the_maximum Sample.noon_jan_15 Sample.parse_datetime
           Sample.int_of_value [Sample.raw] 0%nat Sample.raw "MX" Sample.thresholds
           3%nat (Totals "MX" 25 25) Sample.after_run (Sample.enriched "MX"));
    vm_compute; reflexivity.
Defined.

Lemma returned_frame_labels_witness :
  "date" ∈ columns (Sample.enriched "MX") <->
  "date" ∈ ["confirmed"; "new_cases"; "prev_confirmed"; "growth_rate"; "risk"; "country"] \/
  ("date" ∈ to_snake_case <$> columns Sample.raw /\
   ("date" = "cases" -> "confirmed" ∈ to_snake_case <$> columns Sample.raw)).
Proof.
  apply (returned_frame_labels Sample.noon_jan_15 Sample.parse_datetime
           Sample.int_of_value [Sample.raw] 0%nat Sample.raw "MX" Sample.thresholds
           3%nat (Totals "MX" 25 25) Sample.after_run (Sample.enriched "MX") "date");
    vm_compute; reflexivity.
Defined.
